(** * PDF search and download: a shallow embedding of
      [pdf_search_download_api.py]

    The file models the two methods of [GoogleCustomSearchPDFDownloader]
    that make up the pipeline, [search_pdfs] and [download_pdfs], together
    with its constructor, the record written by [save_links_to_file], and
    [main].

    Modelling conventions.
    - A Python [str] is a [string]: a sequence of characters whose code
      points are below 256.  [lower], [strip] and [isspace] follow Python
      on that range.
    - A Python [int] is a [Z]; [//] is [Z.div] (both round to minus
      infinity for a positive divisor) and [min] is [Z.min].
    - The network is a function from the request to its reply; a reply is
      either the exception [requests.get] raises or the response object.
    - Side effects ([requests.get], [time.sleep], [save_links_to_file],
      writes to the download log, the files in the output directory) are
      threaded explicitly: [search_pdfs] returns the list of events it
      caused, [download_pdfs] passes a state holding the log and the files.
    - Console output ([print], the [tqdm] progress bar) is not modelled.
    - Exceptions the source does not catch end the call: the result is
      [Raised].
    - The first models of [search_pdfs] and [download_pdfs] take the
      calls to [save_links_to_file], [os.makedirs] and [os.remove] and the
      opening of the log to succeed, and [response.json()] to raise
      nothing but a [JSONDecodeError]; the module [Full] has the methods
      with these calls answered by the world as well. *)

From Stdlib Require Import ZArith Ascii String Strings.Byte List Bool Lia.
From stdpp Require Import base tactics option list strings pretty gmap.

Local Open Scope string_scope.
Local Open Scope list_scope.

(* ===================================================================== *)
(** * Python strings *)
(* ===================================================================== *)

Module PyStr.

(** [c.isspace()] for a character below 256: TAB..CR, FS..US, SPACE,
    NEL and NBSP. *)
Definition isspace (c : ascii) : bool :=
  let n := nat_of_ascii c in
  (((9 <=? n) && (n <=? 13)) || ((28 <=? n) && (n <=? 32))
   || (n =? 133) || (n =? 160))%nat.

(** [c.lower()] for a character below 256: A..Z and the upper-case
    letters of Latin-1 (0xC0..0xDE without the multiplication sign 0xD7)
    move up by 32, everything else is unchanged. *)
Definition lower_char (c : ascii) : ascii :=
  let n := nat_of_ascii c in
  if (((65 <=? n) && (n <=? 90))
      || ((192 <=? n) && (n <=? 222) && negb (n =? 215)))%nat
  then ascii_of_nat (n + 32) else c.

Fixpoint lower (s : string) : string :=
  match s with
  | EmptyString => EmptyString
  | String c s' => String (lower_char c) (lower s')
  end.

(** [s.startswith(p)] *)
Definition startswith (s p : string) : bool := String.prefix p s.

(** [s.endswith(suffix)]: the last [len(suffix)] characters of [s] are
    [suffix]. *)
Definition endswith (s suffix : string) : bool :=
  let n := String.length s in
  let k := String.length suffix in
  (k <=? n)%nat && String.eqb (substring (n - k) k s) suffix.

(** [sub in s] for two strings: [sub] occurs in [s] at some position. *)
Fixpoint contains (sub s : string) : bool :=
  String.prefix sub s
  || match s with
     | EmptyString => false
     | String _ s' => contains sub s'
     end.

Fixpoint lstrip (s : string) : string :=
  match s with
  | EmptyString => EmptyString
  | String c s' => if isspace c then lstrip s' else s
  end.

Fixpoint rstrip (s : string) : string :=
  match s with
  | EmptyString => EmptyString
  | String c s' =>
      match rstrip s' with
      | EmptyString => if isspace c then EmptyString else String c EmptyString
      | r => String c r
      end
  end.

(** [s.strip()] *)
Definition strip (s : string) : string := rstrip (lstrip s).

(** Every character of [s] is whitespace (true of the empty string). *)
Fixpoint all_space (s : string) : bool :=
  match s with
  | EmptyString => true
  | String c s' => isspace c && all_space s'
  end.

(** [bool(s)]: a string is truthy when it is not empty. *)
Definition truthy (s : string) : bool :=
  match s with EmptyString => false | _ => true end.

(** [c.isalnum()] for a character below 256: the digits, the letters of
    ASCII and of Latin-1 (with the ordinal indicators and the micro sign),
    and the superscript digits and vulgar fractions, which are numeric. *)
Definition isalnum (c : ascii) : bool :=
  let n := nat_of_ascii c in
  (((48 <=? n) && (n <=? 57)) || ((65 <=? n) && (n <=? 90))
   || ((97 <=? n) && (n <=? 122))
   || (n =? 170) || (n =? 178) || (n =? 179) || (n =? 181) || (n =? 185)
   || (n =? 186) || ((188 <=? n) && (n <=? 190))
   || ((192 <=? n) && (n <=? 214)) || ((216 <=? n) && (n <=? 246))
   || ((248 <=? n) && (n <=? 255)))%nat.

(** ["".join(c for c in s if keep(c))] *)
Fixpoint filter_chars (keep : ascii -> bool) (s : string) : string :=
  match s with
  | EmptyString => EmptyString
  | String c s' =>
      if keep c then String c (filter_chars keep s') else filter_chars keep s'
  end.

(** The characters of a string, in order. *)
Fixpoint chars (s : string) : list ascii :=
  match s with
  | EmptyString => []
  | String c s' => c :: chars s'
  end.

End PyStr.

(* ===================================================================== *)
(** * Parsed JSON and the Python operations applied to it *)
(* ===================================================================== *)

(** Exceptions raised by the operations [search_pdfs] applies to the parsed
    body.  None of them is a [RequestException] or a [JSONDecodeError], so
    none is caught by the handlers of the page loop. *)
Inductive pyexn :=
| TypeError
| AttributeError
| KeyError.

(** The value [response.json()] returns.  [JNum] stands for [int] and
    [float] alike (neither is a container, subscriptable, or has [lower]).
    [JObj] holds the items of the [dict] in insertion order; the value of a
    key is its first binding. *)
#[local] Unset Elimination Schemes.
Inductive json :=
| JNull
| JBool (b : bool)
| JNum (n : Z)
| JStr (s : string)
| JArr (elems : list json)
| JObj (items : list (string * json)).
#[local] Set Elimination Schemes.

Module Py.

Definition is_str (key : string) (v : json) : bool :=
  match v with
  | JStr s => String.eqb s key
  | _ => false
  end.

Fixpoint chars (s : string) : list json :=
  match s with
  | EmptyString => []
  | String c s' => JStr (String c EmptyString) :: chars s'
  end.

Fixpoint assoc (key : string) (items : list (string * json)) : option json :=
  match items with
  | [] => None
  | (k, v) :: rest => if String.eqb k key then Some v else assoc key rest
  end.

(** [key in v] for a string [key]. *)
Definition contains (key : string) (v : json) : pyexn + bool :=
  match v with
  | JObj items => inr (existsb (fun kv => String.eqb (fst kv) key) items)
  | JArr elems => inr (existsb (is_str key) elems)
  | JStr s => inr (PyStr.contains key s)
  | JNull | JBool _ | JNum _ => inl TypeError
  end.

(** [v[key]] for a string [key]. *)
Definition getitem (v : json) (key : string) : pyexn + json :=
  match v with
  | JObj items =>
      match assoc key items with
      | Some x => inr x
      | None => inl KeyError
      end
  | _ => inl TypeError
  end.

(** The elements [for item in v] runs over. *)
Definition iter (v : json) : pyexn + list json :=
  match v with
  | JArr elems => inr elems
  | JObj items => inr (map (fun kv => JStr (fst kv)) items)
  | JStr s => inr (chars s)
  | JNull | JBool _ | JNum _ => inl TypeError
  end.

(** [range(n)] *)
Definition range (n : Z) : list Z := map Z.of_nat (seq 0 (Z.to_nat n)).

(** [l[:n]] *)
Definition slice_to {A} (l : list A) (n : Z) : list A :=
  if (0 <=? n)%Z then firstn (Z.to_nat n) l
  else firstn (Z.to_nat (Z.of_nat (length l) + n)) l.

(** [len(l)] *)
Definition len {A} (l : list A) : Z := Z.of_nat (length l).

End Py.

(* ===================================================================== *)
(** * Discovery: [search_pdfs] *)
(* ===================================================================== *)

(** The fields [__init__] stores on the object. *)
Record downloader := {
  api_key : string;
  cx_id : string;
  base_url : string
}.

(** [__init__]: the given credentials, else those of the environment;
    [ValueError] when one of them is missing or empty. *)
Definition init (getenv : string -> option string)
    (key cx : option string) : option downloader :=
  let pick (given : option string) (name : string) : option string :=
    match given with
    | Some s => if PyStr.truthy s then Some s else getenv name
    | None => getenv name
    end in
  match pick key "GOOGLE_API_KEY", pick cx "GOOGLE_CX_ID" with
  | Some k, Some c =>
      if PyStr.truthy k && PyStr.truthy c
      then Some {| api_key := k; cx_id := c;
                   base_url := "https://www.googleapis.com/customsearch/v1" |}
      else None
  | _, _ => None
  end.

(** The [params] dictionary of one page request. *)
Record search_params := {
  p_key : string;
  p_cx : string;
  p_q : string;
  p_start : Z;
  p_fileType : string;
  p_alt : string
}.

(** What [requests.get] and [response.json()] do for one page request. *)
Inductive api_reply :=
| RequestFailed
    (* [requests.get] raises a [RequestException] *)
| Response (status_code : Z) (body : option json).
    (* a response; [body = None] when [response.json()] raises a
       [JSONDecodeError] *)

(** The search endpoint: the reply to a GET on a URL with parameters. *)
Definition search_api := string -> search_params -> api_reply.

(** Side effects of [search_pdfs], in the order they happen. *)
Inductive event :=
| EGet (url : string) (params : search_params)
| ESleep (seconds : Z)
| ESave (urls : list string) (query : string).

Inductive result :=
| Returned (urls : list string)
| Raised (e : pyexn).

Definition run : Type := result * list event.

(** Prepend an event to the rest of a run. *)
Definition emit (e : event) (r : run) : run := (fst r, e :: snd r).

(** How the scan of the items of one page ends. *)
Inductive scan :=
| ScanDone (pdf_urls : list string)
    (* all items seen, the count is not reached *)
| ScanFull (pdf_urls : list string)
    (* [len(pdf_urls) >= num_results] after an append *)
| ScanRaised (e : pyexn).

(** Lines 112-118: the loop over [search_results['items']]. *)
Fixpoint scan_items (num_results : Z) (items : list json)
    (pdf_urls : list string) : scan :=
  match items with
  | [] => ScanDone pdf_urls
  | item :: rest =>
      match Py.contains "link" item with
      | inl e => ScanRaised e
      | inr false => scan_items num_results rest pdf_urls
      | inr true =>
          match Py.getitem item "link" with
          | inl e => ScanRaised e
          | inr (JStr link) =>
              if PyStr.endswith (PyStr.lower link) ".pdf" then
                let pdf_urls := pdf_urls ++ [link] in
                if (Py.len pdf_urls >=? num_results)%Z
                then ScanFull pdf_urls
                else scan_items num_results rest pdf_urls
              else scan_items num_results rest pdf_urls
          | inr _ => ScanRaised AttributeError
          end
      end
  end.

(** Lines 111-118: what one parsed page adds to [pdf_urls]. *)
Definition scan_page (num_results : Z) (search_results : json)
    (pdf_urls : list string) : scan :=
  match Py.contains "items" search_results with
  | inl e => ScanRaised e
  | inr false => ScanDone pdf_urls
  | inr true =>
      match Py.getitem search_results "items" with
      | inl e => ScanRaised e
      | inr items =>
          match Py.iter items with
          | inl e => ScanRaised e
          | inr items => scan_items num_results items pdf_urls
          end
      end
  end.

(** Lines 130-134: the code after the page loop. *)
Definition finish (query : string) (pdf_urls : list string) : run :=
  match pdf_urls with
  | [] => (Returned pdf_urls, [])
  | _ :: _ => (Returned pdf_urls, [ESave pdf_urls query])
  end.

Section Search.

Variable self : downloader.
Variable api : search_api.

Definition page_params (query : string) (i : Z) : search_params :=
  {| p_key := api_key self;
     p_cx := cx_id self;
     p_q := query +:+ " filetype:pdf";
     p_start := (i * 10 + 1)%Z;
     p_fileType := "pdf";
     p_alt := "json" |}.

(** Lines 81-128: the loop over the pages, from the pages still to
    request and the URLs found so far. *)
Fixpoint search_loop (query : string) (num_results : Z) (pages : list Z)
    (pdf_urls : list string) : run :=
  match pages with
  | [] => finish query pdf_urls
  | i :: rest =>
      let params := page_params query i in
      emit (EGet (base_url self) params)
        match api (base_url self) params with
        | RequestFailed => finish query pdf_urls
        | Response status_code body =>
            if (status_code =? 400)%Z then finish query pdf_urls
            else if (status_code =? 403)%Z then finish query pdf_urls
            else if negb (status_code =? 200)%Z then finish query pdf_urls
            else
              match body with
              | None => finish query pdf_urls
              | Some search_results =>
                  match scan_page num_results search_results pdf_urls with
                  | ScanRaised e => (Raised e, [])
                  | ScanFull pdf_urls =>
                      emit (ESave pdf_urls query)
                        (Returned (Py.slice_to pdf_urls num_results), [])
                  | ScanDone pdf_urls =>
                      emit (ESleep 1)
                        (search_loop query num_results rest pdf_urls)
                  end
              end
        end
  end.

(** [search_pdfs(query, num_results)] *)
Definition search_pdfs (query : string) (num_results : Z) : run :=
  if negb (PyStr.truthy query) || String.eqb (PyStr.strip query) ""
  then (Returned [], [])
  else
    let query := PyStr.strip query in
    let num_requests := Z.min 10 ((num_results + 9) / 10) in
    search_loop query num_results (Py.range num_requests) [].

End Search.

(** The start offsets of the page requests of a run, in order. *)
Definition request_starts (tr : list event) : list Z :=
  omap (fun e => match e with EGet _ p => Some (p_start p) | _ => None end) tr.

(** The saves of a run, in order. *)
Definition saves (tr : list event) : list (list string * string) :=
  omap (fun e => match e with ESave urls q => Some (urls, q) | _ => None end) tr.

(** [main], lines 239-244: the count handed to [search_pdfs], from what
    [int] makes of the typed text ([None] when it raises). *)
Definition main_num_results (parsed : option Z) : Z :=
  match parsed with
  | Some n => Z.min n 100
  | None => 10
  end.

(* ===================================================================== *)
(** * Retrieval: [download_pdfs] *)
(* ===================================================================== *)

(** An exception raised during a download attempt, by what the handlers of
    lines 213-221 look at: whether it is a [requests.exceptions.Timeout],
    whether it is a [requests.exceptions.ConnectionError] (a
    [ConnectTimeout] is both), and [str(e)]. *)
Record exn := {
  is_timeout : bool;
  is_connection_error : bool;
  exn_str : string
}.

(** The response object of a streamed GET: status, headers, and what
    [iter_content] yields: the chunks, then possibly an exception. *)
Record response := {
  r_status : Z;
  r_headers : list (string * string);
  r_chunks : list (list byte);
  r_stream_error : option exn
}.

Inductive get_reply :=
| GetRaised (e : exn)
| GetResponse (r : response).

(** The environment of [download_pdfs]: the reply to the [i]-th GET (the
    list is numbered from 1), the exception [open(filename, 'wb')] raises
    if any, and [int] on a string ([None] for [ValueError]). *)
Record world := {
  http_get : nat -> string -> get_reply;
  open_wb : string -> option exn;
  py_int : string -> option Z
}.

(** The lines [download_pdfs] writes to its log, one constructor per
    [f.write]. *)
Inductive log_line :=
| LSession
| LTotal (n : nat)
| LRule
| LAttempt (i : nat) (url : string)
| LStatus (code : Z)
| LHeaders (headers : list (string * string))
| LSuccess (filename : string)
| LEmpty
| LNotPdf (url : string) (content_type : string)
| LHttpStatus (url : string) (code : Z)
| LTimeout (url : string)
| LConnection (url : string)
| LError (url : string) (message : string).

(** What [download_pdfs] changes: its log (opened with mode ['w'], so it
    starts empty), the files and directories on disk, the seconds slept. *)
Record state := {
  log : list log_line;
  files : gmap string (list byte);
  dirs : gset string;
  slept : Z
}.

Definition write_log (l : log_line) (st : state) : state :=
  {| log := log st ++ [l]; files := files st; dirs := dirs st;
     slept := slept st |}.

Definition set_files (fs : gmap string (list byte)) (st : state) : state :=
  {| log := log st; files := fs; dirs := dirs st; slept := slept st |}.

Definition sleep (seconds : Z) (st : state) : state :=
  {| log := log st; files := files st; dirs := dirs st;
     slept := (slept st + seconds)%Z |}.

(** [os.path.join(a, b)] for a relative [b]. *)
Definition path_join (a b : string) : string :=
  match a with
  | EmptyString => b
  | _ => if PyStr.endswith a "/" then a +:+ b else a +:+ "/" +:+ b
  end.

(** Line 158: the file of the [i]-th URL. *)
Definition document (output_dir : string) (i : nat) : string :=
  path_join output_dir ("document_" +:+ pretty i +:+ ".pdf").

(** [headers.get(name)] on the case-insensitive dictionary of a response. *)
Fixpoint header_get (name : string) (headers : list (string * string))
    : option string :=
  match headers with
  | [] => None
  | (k, v) :: rest =>
      if String.eqb (PyStr.lower k) (PyStr.lower name) then Some v
      else header_get name rest
  end.

(** Line 182 *)
Definition is_pdf_type (content_type : string) : bool :=
  existsb (fun pdf_type => PyStr.contains pdf_type content_type)
    ["application/pdf"; "application/x-pdf"; "application/octet-stream"].

(** [pdf_file.write(data)] on the open file. *)
Definition write_chunk (filename : string) (data : list byte)
    (fs : gmap string (list byte)) : gmap string (list byte) :=
  alter (fun content => content ++ data) filename fs.

(** Lines 194-196 *)
Definition write_chunks (filename : string) (chunks : list (list byte))
    (fs : gmap string (list byte)) : gmap string (list byte) :=
  fold_left (fun fs data => write_chunk filename data fs) chunks fs.

Definition OSError (message : string) : exn :=
  {| is_timeout := false; is_connection_error := false;
     exn_str := message |}.

Definition ValueError (message : string) : exn :=
  {| is_timeout := false; is_connection_error := false;
     exn_str := message |}.

Section Download.

Variable w : world.
Variable output_dir : string.

(** Lines 185-205: the branch that writes the file.  The result is the
    state reached and the exception that ended the branch, if any. *)
Definition save_body (url filename : string) (r : response)
    (content_length : option string) (st : state) : state * option exn :=
  let total_size :=
    match content_length with
    | Some s => if PyStr.truthy s then py_int w s else Some 0%Z
    | None => Some 0%Z
    end in
  match total_size with
  | None => (st, Some (ValueError "invalid literal for int()"))
  | Some _ =>
      match open_wb w filename with
      | Some e => (st, Some e)
      | None =>
          let st := set_files (<[filename := []]> (files st)) st in
          let st :=
            set_files (write_chunks filename (r_chunks r) (files st)) st in
          match r_stream_error r with
          | Some e => (st, Some e)
          | None =>
              match files st !! filename with
              | None => (st, Some (OSError "No such file or directory"))
              | Some content =>
                  if (0 <? length content)%nat then
                    (write_log (LSuccess filename) st, None)
                  else
                    let st := write_log LEmpty st in
                    (set_files (delete filename (files st)) st, None)
              end
          end
      end
  end.

(** Lines 158-211: the body of the [try]. *)
Definition attempt (i : nat) (url : string) (st : state)
    : state * option exn :=
  let filename := document output_dir i in
  let st := write_log (LAttempt i url) st in
  match http_get w i url with
  | GetRaised e => (st, Some e)
  | GetResponse r =>
      let st := write_log (LStatus (r_status r)) st in
      let st := write_log (LHeaders (r_headers r)) st in
      if (r_status r =? 200)%Z then
        let content_type :=
          PyStr.lower (default "" (header_get "content-type" (r_headers r))) in
        let content_length := header_get "content-length" (r_headers r) in
        let is_pdf := is_pdf_type content_type in
        if is_pdf || PyStr.endswith (PyStr.lower url) ".pdf" then
          save_body url filename r content_length st
        else
          (write_log (LNotPdf url content_type) st, None)
      else
        (write_log (LHttpStatus url (r_status r)) st, None)
  end.

(** Lines 213-221: the handlers, tried in order. *)
Definition handle (url : string) (e : exn) (st : state) : state :=
  if is_timeout e then write_log (LTimeout url) st
  else if is_connection_error e then write_log (LConnection url) st
  else write_log (LError url (exn_str e)) st.

(** Lines 157-224: one iteration of the loop over the URLs. *)
Definition download_one (i : nat) (url : string) (st : state) : state :=
  let (st, raised) := attempt i url st in
  let st :=
    match raised with
    | Some e => handle url e st
    | None => st
    end in
  sleep 1 st.

(** Line 156: [for i, url in enumerate(urls, 1)], from position [i]. *)
Fixpoint download_loop (i : nat) (urls : list string) (st : state) : state :=
  match urls with
  | [] => st
  | url :: rest => download_loop (S i) rest (download_one i url st)
  end.

(** Lines 152-154: the head of the log. *)
Definition session_header (urls : list string) : list log_line :=
  [LSession; LTotal (length urls); LRule].

(** [download_pdfs(urls, output_dir)], from the files and directories on
    disk before the call.  Lines 144-145 create the directory when no path
    of that name exists. *)
Definition download_pdfs (urls : list string)
    (files0 : gmap string (list byte)) (dirs0 : gset string) : state :=
  let dirs1 :=
    if decide (output_dir ∈ dirs0 ∨ is_Some (files0 !! output_dir))
    then dirs0 else {[output_dir]} ∪ dirs0 in
  download_loop 1 urls
    {| log := session_header urls; files := files0; dirs := dirs1;
       slept := 0 |}.

End Download.

(** The outcome of a download attempt, as the line the taken branch writes
    to the log tells it. *)
Inductive error_class := Timeout | ConnectionError | EmptyDownload | Other.

Inductive DownloadOutcome :=
| Success (path : string)
| SkippedWrongType (content_type : string)
| SkippedHTTPError (status : Z)
| Failed (cls : error_class) (message : string).

Definition outcome_of (l : log_line) : option DownloadOutcome :=
  match l with
  | LSuccess filename => Some (Success filename)
  | LEmpty => Some (Failed EmptyDownload "Downloaded file is empty")
  | LNotPdf _ content_type => Some (SkippedWrongType content_type)
  | LHttpStatus _ code => Some (SkippedHTTPError code)
  | LTimeout _ => Some (Failed Timeout "Request timed out")
  | LConnection _ => Some (Failed ConnectionError "Connection error")
  | LError _ message => Some (Failed Other message)
  | LSession | LTotal _ | LRule | LAttempt _ _ | LStatus _ | LHeaders _ => None
  end.

(** The outcomes a log records, in the order they were written. *)
Definition outcomes (l : list log_line) : list DownloadOutcome :=
  omap outcome_of l.


(* ===================================================================== *)
(** * The record of the links: [save_links_to_file] *)
(* ===================================================================== *)

(** The line feed. *)
Definition newline : string := String (ascii_of_nat 10) EmptyString.

(** Line 44: the characters of the query kept for the file name. *)
Definition keep_in_name (c : ascii) : bool :=
  PyStr.isalnum c || Ascii.eqb c " " || Ascii.eqb c "-" || Ascii.eqb c "_".

(** Line 44 *)
Definition safe_query (query : string) : string :=
  PyStr.rstrip (PyStr.filter_chars keep_in_name query).

(** Lines 40-46: the name of the file, from the time stamp
    [strftime("%Y%m%d_%H%M%S")] of the call. *)
Definition links_filename (timestamp query : string) : string :=
  let safe_query := safe_query query in
  if PyStr.truthy safe_query
  then "pdf_links_" +:+ safe_query +:+ "_" +:+ timestamp +:+ ".txt"
  else "pdf_links_" +:+ timestamp +:+ ".txt".

(** Lines 54-55: [for i, url in enumerate(urls, 1)], from number [i]. *)
Fixpoint link_lines (i : nat) (urls : list string) : list string :=
  match urls with
  | [] => []
  | url :: rest =>
      (pretty i +:+ ". " +:+ url +:+ newline) :: link_lines (S i) rest
  end.

(** Line 52: fifty dashes and two line feeds. *)
Definition rule_line : string :=
  "--------------------------------------------------"
  +:+ newline +:+ newline.

(** Lines 49-55: what is written to the file, one string per [f.write];
    [date] is [strftime('%Y-%m-%d %H:%M:%S')] at line 50. *)
Definition links_content (date query : string) (urls : list string)
    : list string :=
  ["Search Query: " +:+ query +:+ newline;
   "Date: " +:+ date +:+ newline;
   "Number of PDFs found: " +:+ pretty (length urls) +:+ newline;
   rule_line]
  ++ link_lines 1 urls.

(** [save_links_to_file(urls, query)]: the file it opens with mode ['w']
    and the strings it writes to it. *)
Definition save_links_to_file (timestamp date : string)
    (urls : list string) (query : string) : string * list string :=
  (links_filename timestamp query, links_content date query urls).

(* ===================================================================== *)
(** * The command line: [main] *)
(* ===================================================================== *)

(** How [main] ends. *)
Inductive main_end :=
| NoCredentials
    (* [ValueError] out of the constructor, line 264 *)
| EmptyQuery
    (* line 237 *)
| NoResults
    (* line 252 *)
| Declined
    (* line 262 *)
| Downloaded (urls : list string) (st : state)
    (* line 260 *)
| Unexpected.
    (* line 268: [input] at the end of the input, or an exception out of
       [search_pdfs] *)

(** [main()]: the lines typed are [stdin] ([input] raises [EOFError] when
    none is left); the result is how it ends and the events of its search. *)
Definition main (getenv : string -> option string) (api : search_api)
    (w : world) (stdin : list string)
    (files0 : gmap string (list byte)) (dirs0 : gset string)
    : main_end * list event :=
  match init getenv None None with
  | None => (NoCredentials, [])
  | Some downloader =>
      match stdin with
      | [] => (Unexpected, [])
      | line :: stdin =>
          let query := PyStr.strip line in
          if negb (PyStr.truthy query) then (EmptyQuery, [])
          else
            match stdin with
            | [] => (Unexpected, [])
            | num_results :: stdin =>
                let num_results := main_num_results (py_int w num_results) in
                let (found, events) :=
                  search_pdfs downloader api query num_results in
                match found with
                | Raised _ => (Unexpected, events)
                | Returned [] => (NoResults, events)
                | Returned pdf_urls =>
                    match stdin with
                    | [] => (Unexpected, events)
                    | download_choice :: _ =>
                        let download_choice :=
                          PyStr.lower (PyStr.strip download_choice) in
                        if String.eqb download_choice "yes" then
                          (Downloaded pdf_urls
                             (download_pdfs w "downloaded_pdfs" pdf_urls
                                files0 dirs0),
                           events)
                        else (Declined, events)
                    end
                end
            end
      end
  end.

(* ===================================================================== *)
(** * The calls that can fail besides: [Full] *)
(* ===================================================================== *)

(** [search_pdfs] and [download_pdfs] above are the methods in a world
    where [save_links_to_file], [os.makedirs], the opening of the log and
    [os.remove] do not raise and [response.json()] raises nothing but a
    [JSONDecodeError].  This module has the same code with these calls
    answered by the world too; [search_full_agrees] and
    [download_full_agrees] relate the two. *)
Module Full.

(** What [response.json()] does. *)
Inductive json_outcome :=
| JsonValue (v : json)
| JsonDecodeError
    (* caught at line 123 (or at line 120, as a [RequestException]) *)
| JsonOtherError.
    (* any other exception, a [RecursionError] on deeply nested brackets
       among them; no handler of the loop fits *)

(** What [requests.get] and [response.json()] do for one page request. *)
Inductive page_reply :=
| PageFailed
    (* [requests.get] raises a [RequestException] *)
| PageResponse (status_code : Z) (body : json_outcome).

(** The world of [search_pdfs]: the endpoint, and whether
    [save_links_to_file(urls, query)] raises (the [open] of the record
    fails on a name that is too long, in a directory that is read-only). *)
Record search_world := {
  get : string -> search_params -> page_reply;
  save_raises : list string -> string -> bool
}.

(** The exceptions that leave [search_pdfs]. *)
Inductive escaped :=
| FromScan (e : pyexn)
| FromJson
| FromSave.

Inductive result :=
| Returned (urls : list string)
| Raised (e : escaped).

Definition run : Type := result * list event.

Definition emit (e : event) (r : run) : run := (fst r, e :: snd r).

Section Search.

Variable self : downloader.
Variable sw : search_world.

(** [self.save_links_to_file(pdf_urls, query)] followed by
    [return returned]. *)
Definition save_then_return (pdf_urls : list string) (query : string)
    (returned : list string) : run :=
  emit (ESave pdf_urls query)
    (if save_raises sw pdf_urls query then (Raised FromSave, [])
     else (Returned returned, [])).

(** Lines 130-134: the code after the page loop. *)
Definition finish (query : string) (pdf_urls : list string) : run :=
  match pdf_urls with
  | [] => (Returned pdf_urls, [])
  | _ :: _ => save_then_return pdf_urls query pdf_urls
  end.

(** Lines 81-128: the loop over the pages. *)
Fixpoint search_loop (query : string) (num_results : Z) (pages : list Z)
    (pdf_urls : list string) : run :=
  match pages with
  | [] => finish query pdf_urls
  | i :: rest =>
      let params := page_params self query i in
      emit (EGet (base_url self) params)
        match get sw (base_url self) params with
        | PageFailed => finish query pdf_urls
        | PageResponse status_code body =>
            if (status_code =? 400)%Z then finish query pdf_urls
            else if (status_code =? 403)%Z then finish query pdf_urls
            else if negb (status_code =? 200)%Z then finish query pdf_urls
            else
              match body with
              | JsonDecodeError => finish query pdf_urls
              | JsonOtherError => (Raised FromJson, [])
              | JsonValue search_results =>
                  match scan_page num_results search_results pdf_urls with
                  | ScanRaised e => (Raised (FromScan e), [])
                  | ScanFull pdf_urls =>
                      save_then_return pdf_urls query
                        (Py.slice_to pdf_urls num_results)
                  | ScanDone pdf_urls =>
                      emit (ESleep 1)
                        (search_loop query num_results rest pdf_urls)
                  end
              end
        end
  end.

(** [search_pdfs(query, num_results)] *)
Definition search_pdfs (query : string) (num_results : Z) : run :=
  if negb (PyStr.truthy query) || String.eqb (PyStr.strip query) ""
  then (Returned [], [])
  else
    let query := PyStr.strip query in
    let num_requests := Z.min 10 ((num_results + 9) / 10) in
    search_loop query num_results (Py.range num_requests) [].

End Search.

(** The answers of the file system to [download_pdfs]: the exception
    [os.makedirs(path)] raises, the exception the opening of the log
    raises, the exception [os.remove(path)] raises; [None] when the call
    succeeds. *)
Record disk := {
  makedirs_error : string -> option exn;
  open_log_error : option exn;
  remove_error : string -> option exn
}.

Section Download.

Variable d : disk.
Variable w : world.
Variable output_dir : string.

(** Lines 185-205: the branch that writes the file.  When [os.remove]
    raises, the line of the empty file is written already and the file
    stays. *)
Definition save_body (url filename : string) (r : response)
    (content_length : option string) (st : state) : state * option exn :=
  let total_size :=
    match content_length with
    | Some s => if PyStr.truthy s then py_int w s else Some 0%Z
    | None => Some 0%Z
    end in
  match total_size with
  | None => (st, Some (ValueError "invalid literal for int()"))
  | Some _ =>
      match open_wb w filename with
      | Some e => (st, Some e)
      | None =>
          let st := set_files (<[filename := []]> (files st)) st in
          let st :=
            set_files (write_chunks filename (r_chunks r) (files st)) st in
          match r_stream_error r with
          | Some e => (st, Some e)
          | None =>
              match files st !! filename with
              | None => (st, Some (OSError "No such file or directory"))
              | Some content =>
                  if (0 <? length content)%nat then
                    (write_log (LSuccess filename) st, None)
                  else
                    let st := write_log LEmpty st in
                    match remove_error d filename with
                    | Some e => (st, Some e)
                    | None => (set_files (delete filename (files st)) st, None)
                    end
              end
          end
      end
  end.

(** Lines 158-211: the body of the [try]. *)
Definition attempt (i : nat) (url : string) (st : state)
    : state * option exn :=
  let filename := document output_dir i in
  let st := write_log (LAttempt i url) st in
  match http_get w i url with
  | GetRaised e => (st, Some e)
  | GetResponse r =>
      let st := write_log (LStatus (r_status r)) st in
      let st := write_log (LHeaders (r_headers r)) st in
      if (r_status r =? 200)%Z then
        let content_type :=
          PyStr.lower (default "" (header_get "content-type" (r_headers r))) in
        let content_length := header_get "content-length" (r_headers r) in
        let is_pdf := is_pdf_type content_type in
        if is_pdf || PyStr.endswith (PyStr.lower url) ".pdf" then
          save_body url filename r content_length st
        else
          (write_log (LNotPdf url content_type) st, None)
      else
        (write_log (LHttpStatus url (r_status r)) st, None)
  end.

(** Lines 157-224: one iteration of the loop over the URLs. *)
Definition download_one (i : nat) (url : string) (st : state) : state :=
  let (st, raised) := attempt i url st in
  let st :=
    match raised with
    | Some e => handle url e st
    | None => st
    end in
  sleep 1 st.

(** Line 156 *)
Fixpoint download_loop (i : nat) (urls : list string) (st : state) : state :=
  match urls with
  | [] => st
  | url :: rest => download_loop (S i) rest (download_one i url st)
  end.

(** [os.path.exists(output_dir)]: the empty path never exists. *)
Definition path_exists (files0 : gmap string (list byte))
    (dirs0 : gset string) : bool :=
  PyStr.truthy output_dir
  && bool_decide (output_dir ∈ dirs0 ∨ is_Some (files0 !! output_dir)).

(** [os.makedirs(output_dir)]: the empty path cannot be created. *)
Definition makedirs : option exn :=
  match output_dir with
  | EmptyString => Some (OSError "No such file or directory")
  | _ => makedirs_error d output_dir
  end.

(** [download_pdfs(urls, output_dir)]: the exception that leaves the call
    before the loop, or the state the loop ends in. *)
Definition download_pdfs (urls : list string)
    (files0 : gmap string (list byte)) (dirs0 : gset string) : exn + state :=
  let present := path_exists files0 dirs0 in
  match (if present then None else makedirs) with
  | Some e => inl e
  | None =>
      let dirs1 := if present then dirs0 else {[output_dir]} ∪ dirs0 in
      match open_log_error d with
      | Some e => inl e
      | None =>
          inr (download_loop 1 urls
                 {| log := session_header urls; files := files0;
                    dirs := dirs1; slept := 0 |})
      end
  end.

End Download.

End Full.

(* ===================================================================== *)
(** * Vocabulary of the properties *)
(* ===================================================================== *)

(** A URL ends in the target extension, whatever the case of its letters. *)
Definition ends_in_pdf (u : string) : Prop :=
  PyStr.endswith (PyStr.lower u) ".pdf" = true.

(** A reply that ends pagination: a transport failure, a status other
    than 200 (400 and 403 among them), or a body that does not parse. *)
Definition aborts (r : api_reply) : bool :=
  match r with
  | RequestFailed => true
  | Response status_code body =>
      negb (status_code =? 200)%Z
      || match body with None => true | Some _ => false end
  end.

(** The ceiling of [a / b]. *)
Definition ceil_div (a b : Z) : Z := (- ((- a) / b))%Z.

(** The start offset of the page of ordinal [i]. *)
Definition start_of (i : Z) : Z := (i * 10 + 1)%Z.





(** The body of a reply that does not end pagination. *)
Definition reply_body (r : api_reply) : option json :=
  match r with
  | Response status_code (Some body) =>
      if (status_code =? 200)%Z then Some body else None
  | _ => None
  end.

(** The link of an item shaped as the API documents it: an object whose
    [link], when it has one, is a string. *)
Definition link_of (item : json) : option string :=
  match item with
  | JObj fields =>
      match Py.assoc "link" fields with
      | Some (JStr link) => Some link
      | _ => None
      end
  | _ => None
  end.

Definition shaped_item (item : json) : bool :=
  match item with
  | JObj fields =>
      match Py.assoc "link" fields with
      | None | Some (JStr _) => true
      | Some _ => false
      end
  | _ => false
  end.

(** The items of a page shaped as the API documents it: an object whose
    [items], when it has them, is an array of shaped items. *)
Definition page_items (body : json) : list json :=
  match body with
  | JObj fields =>
      match Py.assoc "items" fields with
      | Some (JArr items) => items
      | _ => []
      end
  | _ => []
  end.

Definition shaped_page (body : json) : bool :=
  match body with
  | JObj fields =>
      match Py.assoc "items" fields with
      | None => true
      | Some (JArr items) => forallb shaped_item items
      | Some _ => false
      end
  | _ => false
  end.

Definition is_pdf_link (u : string) : bool :=
  PyStr.endswith (PyStr.lower u) ".pdf".

(** The links of a page that end in [.pdf], in the order of the items. *)
Definition pdf_links (body : json) : list string :=
  filter (fun u => is_pdf_link u = true) (omap link_of (page_items body)).

(** The bodies of the pages served before the first reply that ends
    pagination. *)
Fixpoint served_pages (self : downloader) (api : search_api) (q : string)
    (pages : list Z) : list json :=
  match pages with
  | [] => []
  | i :: rest =>
      match reply_body (api (base_url self) (page_params self q i)) with
      | Some body => body :: served_pages self api q rest
      | None => []
      end
  end.

(** The seconds a run sleeps. *)
Definition seconds_slept (tr : list event) : Z :=
  fold_right
    (fun e acc => match e with ESleep s => (s + acc)%Z | _ => acc end) 0%Z tr.







(** A world of [Full] in which the calls the first models take to succeed
    do succeed. *)
Definition lift_reply (r : api_reply) : Full.page_reply :=
  match r with
  | RequestFailed => Full.PageFailed
  | Response status_code (Some body) =>
      Full.PageResponse status_code (Full.JsonValue body)
  | Response status_code None =>
      Full.PageResponse status_code Full.JsonDecodeError
  end.

Definition lift_api (api : search_api) : Full.search_world :=
  {| Full.get := fun url params => lift_reply (api url params);
     Full.save_raises := fun _ _ => false |}.

Definition lift_result (r : result) : Full.result :=
  match r with
  | Returned urls => Full.Returned urls
  | Raised e => Full.Raised (Full.FromScan e)
  end.

(** A reply of [Full] that ends pagination, by the branch that takes it. *)
Definition page_aborts (r : Full.page_reply) : bool :=
  match r with
  | Full.PageFailed => true
  | Full.PageResponse status_code body =>
      negb (status_code =? 200)%Z
      || match body with Full.JsonDecodeError => true | _ => false end
  end.

(** The list [pdf_urls] holds once the given pages were all served with
    status 200, parsed and scanned without the count being reached;
    [None] when one of them was not. *)
Fixpoint accumulated (self : downloader) (sw : Full.search_world)
    (q : string) (n : Z) (pages : list Z) (pdf_urls : list string)
    : option (list string) :=
  match pages with
  | [] => Some pdf_urls
  | i :: rest =>
      match Full.get sw (base_url self) (page_params self q i) with
      | Full.PageResponse status_code (Full.JsonValue body) =>
          if (status_code =? 200)%Z then
            match scan_page n body pdf_urls with
            | ScanDone pdf_urls => accumulated self sw q n rest pdf_urls
            | _ => None
            end
          else None
      | _ => None
      end
  end.

(** The bodies of the pages served before the first reply that ends
    pagination; [None] when [response.json()] raises something else than
    a [JSONDecodeError] before that. *)
Fixpoint served_bodies (self : downloader) (sw : Full.search_world)
    (q : string) (pages : list Z) : option (list json) :=
  match pages with
  | [] => Some []
  | i :: rest =>
      match Full.get sw (base_url self) (page_params self q i) with
      | Full.PageResponse status_code body =>
          if (status_code =? 200)%Z then
            match body with
            | Full.JsonValue v =>
                match served_bodies self sw q rest with
                | Some bodies => Some (v :: bodies)
                | None => None
                end
            | Full.JsonDecodeError => Some []
            | Full.JsonOtherError => None
            end
          else Some []
      | Full.PageFailed => Some []
      end
  end.

(** What [Full.search_pdfs] does with the list it is about to return:
    nothing to save for the empty list, else the save, which may raise. *)
Definition after_save (sw : Full.search_world) (q : string)
    (urls : list string) : Full.result :=
  match urls with
  | [] => Full.Returned []
  | _ :: _ =>
      if Full.save_raises sw urls q then Full.Raised Full.FromSave
      else Full.Returned urls
  end.




(* ===================================================================== *)
(** * Sample inputs *)
(* ===================================================================== *)

Module Sample.

Definition dl : downloader :=
  {| api_key := "key"; cx_id := "engine";
     base_url := "https://www.googleapis.com/customsearch/v1" |}.

Definition item (title link : string) : json :=
  JObj [("title", JStr title); ("link", JStr link)].

(** A first page with two PDF links around a link to a web page. *)
Definition page1 : json :=
  JObj [("kind", JStr "customsearch#search");
        ("items", JArr [item "A" "http://a.example/one.PDF";
                        item "B" "http://b.example/index.html";
                        item "C" "http://c.example/two.pdf"])].

(** A second page with one PDF link. *)
Definition page2 : json :=
  JObj [("items", JArr [item "D" "http://d.example/three.pdf"])].

(** A page without results. *)
Definition no_items : json := JObj [("kind", JStr "customsearch#search")].

(** Two pages of results, then pages without items. *)
Definition api : search_api := fun _ p =>
  if (p_start p =? 1)%Z then Response 200 (Some page1)
  else if (p_start p =? 11)%Z then Response 200 (Some page2)
  else Response 200 (Some no_items).

(** Every request is refused. *)
Definition api_403 : search_api := fun _ _ => Response 403 None.

(** The first page is served, the second request fails with status 500. *)
Definition api_500_on_page2 : search_api := fun _ p =>
  if (p_start p =? 1)%Z then Response 200 (Some page1)
  else Response 500 None.

Definition pdf_headers : list (string * string) :=
  [("Content-Type", "application/pdf"); ("Content-Length", "4")].

Definition reply_for (url : string) : get_reply :=
  if String.eqb url "http://a.example/one.PDF" then
    GetResponse {| r_status := 200; r_headers := pdf_headers;
                   r_chunks := [[x25; x50; x44; x46]];
                   r_stream_error := None |}
  else if String.eqb url "http://b.example/page" then
    GetResponse {| r_status := 200;
                   r_headers := [("Content-Type", "text/html")];
                   r_chunks := [[x3c]]; r_stream_error := None |}
  else if String.eqb url "http://c.example/two.pdf" then
    GetResponse {| r_status := 404; r_headers := [];
                   r_chunks := []; r_stream_error := None |}
  else if String.eqb url "http://e.example/empty.pdf" then
    GetResponse {| r_status := 200; r_headers := pdf_headers;
                   r_chunks := []; r_stream_error := None |}
  else if String.eqb url "http://f.example/cut.pdf" then
    GetResponse {| r_status := 200; r_headers := pdf_headers;
                   r_chunks := [[x25; x50]];
                   r_stream_error :=
                     Some {| is_timeout := false;
                             is_connection_error := true;
                             exn_str := "Connection broken" |} |}
  else
    GetRaised {| is_timeout := true; is_connection_error := false;
                 exn_str := "Read timed out" |}.

(** A web where each URL has its fixed reply, every file can be opened,
    and [int] reads 4. *)
Definition web : world :=
  {| http_get := fun _ url => reply_for url;
     open_wb := fun _ => None;
     py_int := fun _ => Some 4%Z |}.

Definition urls : list string :=
  ["http://a.example/one.PDF"; "http://b.example/page";
   "http://c.example/two.pdf"; "http://e.example/empty.pdf";
   "http://g.example/slow.pdf"].

(** A directory left by an earlier run: the first document is there. *)
Definition stale : gmap string (list byte) :=
  {[ "downloaded_pdfs/document_1.pdf" := [x25; x50; x44; x46] ]}.


(** An environment that holds both credentials. *)
Definition env (name : string) : option string :=
  if String.eqb name "GOOGLE_API_KEY" then Some "key"
  else if String.eqb name "GOOGLE_CX_ID" then Some "engine"
  else None.

(** A query of 300 letters: the name of its record is too long. *)
Definition long_query : string :=
  String.concat "" (repeat "a" 300).

(** The first page is served, the second is refused, and a record whose
    name is longer than 255 characters cannot be opened: the name is the
    query between 10 characters before and 20 after. *)
Definition world_long_names : Full.search_world :=
  {| Full.get := fun url p => lift_reply (api_500_on_page2 url p);
     Full.save_raises := fun _ q => (225 <? String.length q)%nat |}.

(** A file system on which every call succeeds. *)
Definition disk_ok : Full.disk :=
  {| Full.makedirs_error := fun _ => None;
     Full.open_log_error := None;
     Full.remove_error := fun _ => None |}.

End Sample.

(* ===================================================================== *)
(** * Facts about strings and Python helpers *)
(* ===================================================================== *)

Lemma lstrip_all_space s : PyStr.all_space s = true -> PyStr.lstrip s = "".
Proof.
  induction s as [|c s IH]; simpl; [reflexivity|].
  intros H. apply andb_true_iff in H as [Hc Hs]. rewrite Hc. auto.
Qed.

Lemma strip_all_space s : PyStr.all_space s = true -> PyStr.strip s = "".
Proof. intros H. unfold PyStr.strip. rewrite lstrip_all_space; auto. Qed.

Lemma ceil_div_10 n : ((n + 9) / 10 = ceil_div n 10)%Z.
Proof.
  unfold ceil_div.
  pose proof (Z.div_mod (n + 9) 10 ltac:(lia)).
  pose proof (Z.mod_pos_bound (n + 9) 10 ltac:(lia)).
  pose proof (Z.div_mod (- n) 10 ltac:(lia)).
  pose proof (Z.mod_pos_bound (- n) 10 ltac:(lia)).
  lia.
Qed.

Lemma range_nonpos n : (n <= 0)%Z -> Py.range n = [].
Proof.
  intros H. unfold Py.range.
  replace (Z.to_nat n) with 0%nat by lia. reflexivity.
Qed.

Lemma num_requests_nonpos n :
  (n <= 0)%Z -> (Z.min 10 ((n + 9) / 10) <= 0)%Z.
Proof.
  intros H. assert ((n + 9) / 10 < 1)%Z; [|lia].
  apply Z.div_lt_upper_bound; lia.
Qed.

Lemma num_requests_pos n :
  (1 <= n)%Z -> (1 <= Z.min 10 ((n + 9) / 10))%Z.
Proof.
  intros H. assert (1 <= (n + 9) / 10)%Z; [|lia].
  apply Z.div_le_lower_bound; lia.
Qed.

Lemma firstn_range k m :
  (k <= Z.to_nat m)%nat -> firstn k (Py.range m) = Py.range (Z.of_nat k).
Proof.
  intros H. unfold Py.range. rewrite Nat2Z.id.
  rewrite firstn_map, take_seq. f_equal. f_equal. lia.
Qed.

Lemma slice_to_all {A} (l : list A) : Py.slice_to l (Py.len l) = l.
Proof.
  unfold Py.slice_to, Py.len.
  destruct (Z.leb_spec 0 (Z.of_nat (length l))); [|lia].
  rewrite Nat2Z.id. apply firstn_all.
Qed.

(* ===================================================================== *)
(** * Facts about the page loop *)
(* ===================================================================== *)

Lemma finish_result q acc : fst (finish q acc) = Returned acc.
Proof. destruct acc; reflexivity. Qed.

Lemma finish_starts q acc : request_starts (snd (finish q acc)) = [].
Proof. destruct acc; reflexivity. Qed.

Lemma finish_saves q acc :
  saves (snd (finish q acc)) = match acc with [] => [] | _ => [(acc, q)] end.
Proof. destruct acc; reflexivity. Qed.

(** The scan keeps the URLs found so far, appends only links that end in
    [.pdf], and reports [ScanFull] exactly when the count is reached. *)
Lemma scan_items_spec n items :
  forall acc,
    (Py.len acc < n)%Z -> Forall ends_in_pdf acc ->
    match scan_items n items acc with
    | ScanDone acc' => (Py.len acc' < n)%Z ∧ Forall ends_in_pdf acc'
    | ScanFull acc' => Py.len acc' = n ∧ Forall ends_in_pdf acc'
    | ScanRaised _ => True
    end.
Proof.
  induction items as [|item rest IH]; intros acc Hlen Hpdf; simpl; [auto|].
  destruct (Py.contains "link" item) as [e|[|]];
    [exact I| |apply IH; assumption].
  destruct (Py.getitem item "link") as [e|[| | |link| |]]; try exact I.
  destruct (PyStr.endswith (PyStr.lower link) ".pdf") eqn:Hext;
    [|apply IH; assumption].
  assert (Hpdf' : Forall ends_in_pdf (acc ++ [link])).
  { apply Forall_app; split; [exact Hpdf|]. constructor; [exact Hext|constructor]. }
  destruct (Z.geb_spec (Py.len (acc ++ [link])) n) as [Hge|Hlt].
  - split; [|exact Hpdf'].
    unfold Py.len in *. rewrite length_app in *. simpl in *. lia.
  - apply IH; assumption.
Qed.

Lemma scan_page_spec n body acc :
  (Py.len acc < n)%Z -> Forall ends_in_pdf acc ->
  match scan_page n body acc with
  | ScanDone acc' => (Py.len acc' < n)%Z ∧ Forall ends_in_pdf acc'
  | ScanFull acc' => Py.len acc' = n ∧ Forall ends_in_pdf acc'
  | ScanRaised _ => True
  end.
Proof.
  intros Hlen Hpdf. unfold scan_page.
  destruct (Py.contains "items" body) as [e|[|]]; [exact I| |auto].
  destruct (Py.getitem body "items") as [e|items]; [exact I|].
  destruct (Py.iter items) as [e|l]; [exact I|].
  apply scan_items_spec; assumption.
Qed.

Section LoopFacts.

Variable self : downloader.
Variable api : search_api.
Variable q : string.
Variable n : Z.

Let get (i : Z) : event := EGet (base_url self) (page_params self q i).
Let reply (i : Z) : api_reply := api (base_url self) (page_params self q i).

Lemma reply_cases (r : api_reply) :
  aborts r = true ∨ ∃ body, r = Response 200 (Some body).
Proof.
  destruct r as [|status [body|]]; simpl; auto.
  - destruct (Z.eqb_spec status 200) as [->|]; simpl; eauto.
  - rewrite orb_true_r. auto.
Qed.

(** A reply that ends pagination: the loop is left with the URLs found so
    far, whatever pages remain. *)
Lemma search_loop_abort i rest acc :
  aborts (reply i) = true ->
  search_loop self api q n (i :: rest) acc = emit (get i) (finish q acc).
Proof.
  unfold reply, get. intros H. simpl.
  destruct (api _ _) as [|status [body|]]; simpl in *; auto.
  - destruct (Z.eqb_spec status 400); [reflexivity|].
    destruct (Z.eqb_spec status 403); [reflexivity|].
    destruct (Z.eqb_spec status 200); [discriminate|reflexivity].
  - destruct (Z.eqb_spec status 400); [reflexivity|].
    destruct (Z.eqb_spec status 403); [reflexivity|].
    destruct (Z.eqb_spec status 200); reflexivity.
Qed.

(** A page that was fetched and parsed: the scan of its items decides. *)
Lemma search_loop_page i rest acc body :
  reply i = Response 200 (Some body) ->
  search_loop self api q n (i :: rest) acc =
  emit (get i)
    match scan_page n body acc with
    | ScanRaised e => (Raised e, [])
    | ScanFull acc' => (Returned (Py.slice_to acc' n), [ESave acc' q])
    | ScanDone acc' =>
        emit (ESleep 1) (search_loop self api q n rest acc')
    end.
Proof.
  unfold reply, get. intros H. simpl. rewrite H. simpl.
  destruct (scan_page n body acc); reflexivity.
Qed.

(** What a returning run of the loop guarantees, from a list shorter than
    the count whose URLs all end in [.pdf]. *)
Lemma search_loop_returned pages :
  forall acc urls tr,
    (Py.len acc < n)%Z -> Forall ends_in_pdf acc ->
    search_loop self api q n pages acc = (Returned urls, tr) ->
    (Py.len urls <= n)%Z
    ∧ Forall ends_in_pdf urls
    ∧ saves tr = match urls with [] => [] | _ => [(urls, q)] end
    ∧ (Py.len urls = n ->
       ∃ tr0 u p, tr = tr0 ++ [EGet u p; ESave urls q]
                  ∧ urls = Py.slice_to urls n).
Proof.
  induction pages as [|i rest IH]; intros acc urls tr Hlen Hpdf Hrun.
  - simpl in Hrun. destruct acc; injection Hrun as <- <-;
      (split; [lia|]); (split; [assumption|]); (split; [reflexivity|]); lia.
  - destruct (reply_cases (reply i)) as [Hab|[body Hok]].
    + rewrite (search_loop_abort _ _ _ Hab) in Hrun.
      destruct acc; injection Hrun as <- <-;
        (split; [lia|]); (split; [assumption|]); (split; [reflexivity|]); lia.
    + rewrite (search_loop_page _ _ _ _ Hok) in Hrun.
      pose proof (scan_page_spec n body acc Hlen Hpdf) as Hscan.
      destruct (scan_page n body acc) as [acc'|acc'|e];
        [|injection Hrun as <- <-|discriminate Hrun].
      * destruct (search_loop self api q n rest acc') as [r tr'] eqn:Hrest.
        injection Hrun as -> <-. destruct Hscan as [Hlen' Hpdf'].
        destruct (IH _ _ _ Hlen' Hpdf' Hrest) as (H1 & H2 & H3 & H4).
        repeat split; try assumption.
        intros Hfull. destruct (H4 Hfull) as (tr0 & u & p & -> & Hs).
        exists (get i :: ESleep 1 :: tr0), u, p. split; [reflexivity|exact Hs].
      * destruct Hscan as [Hlen' Hpdf']. subst n.
        rewrite slice_to_all.
        split; [lia|]. split; [assumption|]. split.
        { destruct acc'; [unfold Py.len in Hlen; simpl in Hlen; lia|reflexivity]. }
        intros _. exists [], (base_url self), (page_params self q i).
        split; [reflexivity|]. symmetry. apply slice_to_all.
Qed.

(** The page requests of a run of the loop are those of a prefix of the
    pages it was given, in order. *)
Lemma search_loop_starts pages :
  forall acc,
    ∃ k, (k <= length pages)%nat
         ∧ request_starts (snd (search_loop self api q n pages acc))
           = map start_of (firstn k pages).
Proof.
  induction pages as [|i rest IH]; intros acc.
  - exists 0%nat. simpl. rewrite finish_starts. auto.
  - destruct (reply_cases (reply i)) as [Hab|[body Hok]].
    + rewrite (search_loop_abort _ _ _ Hab). exists 1%nat.
      split; [simpl; lia|]. simpl. rewrite finish_starts. reflexivity.
    + rewrite (search_loop_page _ _ _ _ Hok).
      destruct (scan_page n body acc) as [acc'|acc'|e].
      * destruct (IH acc') as (k & Hk & Hst). exists (S k).
        split; [simpl; lia|]. simpl. rewrite Hst. reflexivity.
      * exists 1%nat. split; [simpl; lia|]. reflexivity.
      * exists 1%nat. split; [simpl; lia|]. reflexivity.
Qed.

(** A request whose reply ends pagination is the last request of the run,
    and the run returns. *)
Lemma search_loop_abort_last pages :
  forall acc tr1 u p tr2,
    snd (search_loop self api q n pages acc) = tr1 ++ EGet u p :: tr2 ->
    aborts (api u p) = true ->
    request_starts tr2 = []
    ∧ ∃ urls, fst (search_loop self api q n pages acc) = Returned urls.
Proof.
  induction pages as [|i rest IH]; intros acc tr1 u p tr2 Htr Hab.
  - simpl in Htr. destruct acc, tr1 as [|? [|? ?]]; discriminate.
  - destruct (reply_cases (reply i)) as [Hab'|[body Hok]].
    + rewrite (search_loop_abort _ _ _ Hab') in *. simpl in *.
      rewrite finish_result.
      destruct tr1 as [|e tr1]; simpl in Htr.
      * injection Htr as _ _ Htl. rewrite <- Htl, finish_starts. eauto.
      * injection Htr as _ Htl.
        exfalso. destruct acc, tr1 as [|? [|? ?]]; discriminate.
    + rewrite (search_loop_page _ _ _ _ Hok) in *.
      destruct tr1 as [|e tr1].
      * simpl in Htr. injection Htr as Hu Hp _. exfalso. subst u p.
        fold (reply i) in Hab. rewrite Hok in Hab. discriminate.
      * destruct (scan_page n body acc) as [acc'|acc'|e'];
          simpl in Htr; injection Htr as Hhd Htl.
        -- destruct tr1 as [|e2 tr1]; simpl in Htl; [discriminate|].
           injection Htl as _ Htl. simpl. eapply IH; eauto.
        -- destruct tr1 as [|? [|? ?]]; discriminate.
        -- destruct tr1; discriminate.
Qed.

End LoopFacts.

Lemma scan_items_full_app n items :
  forall more acc acc',
    scan_items n items acc = ScanFull acc' ->
    scan_items n (items ++ more) acc = ScanFull acc'.
Proof.
  induction items as [|item rest IH]; intros more acc acc' H; simpl in *;
    [discriminate|].
  destruct (Py.contains "link" item) as [e|[|]]; [discriminate| |auto].
  destruct (Py.getitem item "link") as [e|[| | |link| |]]; try discriminate.
  destruct (PyStr.endswith (PyStr.lower link) ".pdf"); [|auto].
  destruct (Py.len (acc ++ [link]) >=? n)%Z; auto.
Qed.

Lemma scan_items_full_len n items :
  forall acc acc',
    scan_items n items acc = ScanFull acc' -> (Py.len acc' >= n)%Z.
Proof.
  induction items as [|item rest IH]; intros acc acc' H; simpl in *;
    [discriminate|].
  destruct (Py.contains "link" item) as [e|[|]]; [discriminate| |eauto].
  destruct (Py.getitem item "link") as [e|[| | |link| |]]; try discriminate.
  destruct (PyStr.endswith (PyStr.lower link) ".pdf"); [|eauto].
  destruct (Z.geb_spec (Py.len (acc ++ [link])) n); [|eauto].
  injection H as <-. lia.
Qed.

Lemma strip_nonblank query :
  PyStr.strip query <> "" ->
  negb (PyStr.truthy query) || String.eqb (PyStr.strip query) "" = false.
Proof.
  intros H. destruct query as [|c s]; [exfalso; apply H; reflexivity|].
  simpl negb. simpl orb. apply String.eqb_neq. exact H.
Qed.

(** The run of [search_pdfs] on a query that is not blank. *)
Lemma search_pdfs_nonblank self api query n :
  PyStr.strip query <> "" ->
  search_pdfs self api query n =
  search_loop self api (PyStr.strip query) n
    (Py.range (Z.min 10 ((n + 9) / 10))) [].
Proof. intros H. unfold search_pdfs. rewrite strip_nonblank; auto. Qed.

(** The run of [search_pdfs] on a blank query. *)
Lemma search_pdfs_blank self api query n :
  PyStr.strip query = "" -> search_pdfs self api query n = (Returned [], []).
Proof.
  intros H. unfold search_pdfs. rewrite H. simpl. rewrite orb_true_r.
  reflexivity.
Qed.

(* ===================================================================== *)
(** * Discovery: the properties *)
(* ===================================================================== *)

(** C5. For every count, a query that is empty or made of whitespace only
    makes [search_pdfs] return the empty list at once: the run has no event
    (no page request, no save) and nothing is raised. *)
Theorem search_blank_query self api query n :
  query = "" ∨ PyStr.all_space query = true ->
  search_pdfs self api query n = (Returned [], [])
  ∧ request_starts (snd (search_pdfs self api query n)) = [].
Proof.
  intros H. assert (Hs : PyStr.strip query = "").
  { destruct H as [->|H]; [reflexivity|apply strip_all_space, H]. }
  rewrite (search_pdfs_blank _ _ _ _ Hs). split; reflexivity.
Qed.

Lemma search_blank_query_witness :
  search_pdfs Sample.dl Sample.api "   " 10 = (Returned [], [])
  ∧ request_starts (snd (search_pdfs Sample.dl Sample.api "   " 10)) = [].
Proof. apply search_blank_query. right. reflexivity. Defined.

(** C10. For every query (the non-empty ones among them) and every count
    that is zero or negative, the number of page requests computed,
    [min(10, (count + 9) // 10)], is not positive, and [search_pdfs]
    returns the empty list without a page request and without a save. *)
Theorem search_nonpositive_count self api query n :
  (n <= 0)%Z ->
  (Z.min 10 ((n + 9) / 10) <= 0)%Z
  ∧ search_pdfs self api query n = (Returned [], []).
Proof.
  intros H. split; [apply num_requests_nonpos, H|].
  unfold search_pdfs.
  destruct (negb (PyStr.truthy query) || String.eqb (PyStr.strip query) "");
    [reflexivity|].
  rewrite range_nonpos; [reflexivity|apply num_requests_nonpos, H].
Qed.

Lemma search_nonpositive_count_witness :
  (Z.min 10 ((-3 + 9) / 10) <= 0)%Z
  ∧ search_pdfs Sample.dl Sample.api "rocq manual" (-3) = (Returned [], []).
Proof. apply search_nonpositive_count. lia. Defined.

(** What a returning call of [search_pdfs] guarantees, for a count that is
    not negative. *)
Lemma search_pdfs_returned self api query n urls tr :
  search_pdfs self api query n = (Returned urls, tr) ->
  Forall ends_in_pdf urls
  ∧ saves tr = match urls with [] => [] | _ => [(urls, PyStr.strip query)] end
  ∧ ((0 <= n)%Z -> (Py.len urls <= n)%Z)
  ∧ ((1 <= n)%Z -> Py.len urls = n ->
     ∃ tr0 u p, tr = tr0 ++ [EGet u p; ESave urls (PyStr.strip query)]
                ∧ urls = Py.slice_to urls n).
Proof.
  intros Hrun.
  destruct (string_dec (PyStr.strip query) "") as [Hs|Hs].
  { rewrite (search_pdfs_blank _ _ _ _ Hs) in Hrun. injection Hrun as <- <-.
    repeat split; auto. unfold Py.len; simpl; lia. }
  rewrite (search_pdfs_nonblank _ _ _ _ Hs) in Hrun.
  destruct (Z.le_gt_cases n 0) as [Hn|Hn].
  { rewrite range_nonpos in Hrun by (apply num_requests_nonpos, Hn).
    simpl in Hrun. injection Hrun as <- <-.
    repeat split; auto. unfold Py.len; simpl; lia. }
  assert (Hlen : (Py.len (@nil string) < n)%Z) by (unfold Py.len; simpl; lia).
  destruct (search_loop_returned _ _ _ _ _ _ _ _ Hlen (List.Forall_nil _) Hrun)
    as (H1 & H2 & H3 & H4).
  repeat split; auto.
Qed.

(** C3. When the requested count is not negative, the list [search_pdfs]
    returns is never longer than the count.  The scan of a page stops at
    the item whose link makes the list reach the count (the items after it
    are not looked at); the loop over the pages then returns the slice
    [pdf_urls[:num_results]] right after the save, with no further page
    request; and a returned list as long as the count ends a run whose last
    two events are the request of that page and the save. *)
Theorem search_length_bound self api query n urls tr :
  (0 <= n)%Z ->
  search_pdfs self api query n = (Returned urls, tr) ->
  (Py.len urls <= n)%Z
  ∧ ((1 <= n)%Z -> Py.len urls = n ->
     ∃ tr0 u p, tr = tr0 ++ [EGet u p; ESave urls (PyStr.strip query)]
                ∧ urls = Py.slice_to urls n)
  ∧ (∀ items more acc acc',
       scan_items n items acc = ScanFull acc' ->
       (Py.len acc' >= n)%Z
       ∧ scan_items n (items ++ more) acc = ScanFull acc')
  ∧ (∀ q i rest acc body acc',
       api (base_url self) (page_params self q i) = Response 200 (Some body) ->
       scan_page n body acc = ScanFull acc' ->
       search_loop self api q n (i :: rest) acc =
       (Returned (Py.slice_to acc' n),
        [EGet (base_url self) (page_params self q i); ESave acc' q])).
Proof.
  intros Hn Hrun.
  destruct (search_pdfs_returned _ _ _ _ _ _ Hrun) as (_ & _ & H3 & H4).
  split; [auto|]. split; [exact H4|]. split.
  - intros items more acc acc' H. split.
    + eapply scan_items_full_len, H.
    + apply scan_items_full_app, H.
  - intros q i rest acc body acc' Hok Hscan.
    rewrite (search_loop_page _ _ _ _ _ _ _ _ Hok), Hscan. reflexivity.
Qed.

Lemma search_length_bound_witness :
  (Py.len ["http://a.example/one.PDF"; "http://c.example/two.pdf"] <= 2)%Z.
Proof.
  refine (proj1 (search_length_bound Sample.dl Sample.api "rocq manual" 2
                   ["http://a.example/one.PDF"; "http://c.example/two.pdf"]
                   _ _ _)).
  - lia.
  - vm_compute. reflexivity.
Defined.

(** C6. Every URL [search_pdfs] returns ends in [.pdf] once put in lower
    case; an item whose link does not is skipped by the scan, which goes on
    with the list unchanged. *)
Theorem search_only_pdf_links self api query n urls tr :
  search_pdfs self api query n = (Returned urls, tr) ->
  Forall ends_in_pdf urls
  ∧ (∀ item link rest acc,
       Py.contains "link" item = inr true ->
       Py.getitem item "link" = inr (JStr link) ->
       ¬ ends_in_pdf link ->
       scan_items n (item :: rest) acc = scan_items n rest acc).
Proof.
  intros Hrun. split; [apply (search_pdfs_returned _ _ _ _ _ _ Hrun)|].
  intros item link rest acc Hin Hget Hext. simpl. rewrite Hin, Hget.
  unfold ends_in_pdf in Hext.
  destruct (PyStr.endswith (PyStr.lower link) ".pdf"); [|reflexivity].
  exfalso. apply Hext. reflexivity.
Qed.

Lemma search_only_pdf_links_witness :
  Forall ends_in_pdf
    ["http://a.example/one.PDF"; "http://c.example/two.pdf";
     "http://d.example/three.pdf"].
Proof.
  refine (proj1 (search_only_pdf_links Sample.dl Sample.api "rocq manual" 15
                   _ _ _)).
  vm_compute. reflexivity.
Defined.

(** C8. A call of [search_pdfs] that returns at least one URL saves exactly
    once, and what it saves is the list it returns, under the stripped
    query (on the early return when the count is reached as on the return
    after the loop); a call that returns no URL does not save. *)
Theorem search_saves_once self api query n urls tr :
  search_pdfs self api query n = (Returned urls, tr) ->
  saves tr = match urls with
             | [] => []
             | _ :: _ => [(urls, PyStr.strip query)]
             end.
Proof. intros Hrun. apply (search_pdfs_returned _ _ _ _ _ _ Hrun). Qed.

Lemma search_saves_once_witness :
  saves (snd (search_pdfs Sample.dl Sample.api_500_on_page2 " rocq manual" 25))
  = [(["http://a.example/one.PDF"; "http://c.example/two.pdf"], "rocq manual")].
Proof.
  refine (search_saves_once Sample.dl Sample.api_500_on_page2 " rocq manual" 25
            ["http://a.example/one.PDF"; "http://c.example/two.pdf"] _ _).
  vm_compute. reflexivity.
Defined.

(** C9, as the code has it.  [main] hands [search_pdfs] the smaller of the
    typed integer and 100, and 10 when the text is not an integer: the
    count is at most 100 for every input, and it is at least 1 exactly when
    the typed integer is; nothing raises a count below 1. *)
Theorem main_count_capped (parsed : option Z) :
  (main_num_results parsed <= 100)%Z
  ∧ main_num_results None = 10%Z
  ∧ (∀ k, main_num_results (Some k) = Z.min k 100
          ∧ ((1 <= main_num_results (Some k))%Z ↔ (1 <= k)%Z)).
Proof.
  split; [destruct parsed; simpl; lia|]. split; [reflexivity|].
  intros k. simpl. split; [reflexivity|lia].
Qed.

(** C9 fails for a typed [-5]: the count handed to [search_pdfs] is [-5],
    outside 1..100, and the search runs with it (no page is requested). *)
Lemma main_count_below_one :
  main_num_results (Some (-5)%Z) = (-5)%Z
  ∧ ¬ (1 <= main_num_results (Some (-5)%Z) <= 100)%Z
  ∧ search_pdfs Sample.dl Sample.api "rocq manual"
      (main_num_results (Some (-5)%Z)) = (Returned [], []).
Proof. split; [reflexivity|]. split; [simpl; lia|reflexivity]. Qed.

Lemma search_loop_head self api q n i rest acc :
  ∃ tl, request_starts (snd (search_loop self api q n (i :: rest) acc))
        = start_of i :: tl.
Proof.
  destruct (reply_cases (api (base_url self) (page_params self q i)))
    as [Hab|[body Hok]].
  - rewrite (search_loop_abort _ _ _ _ _ _ _ Hab). simpl. eauto.
  - rewrite (search_loop_page _ _ _ _ _ _ _ _ Hok).
    destruct (scan_page n body acc); simpl; eauto.
Qed.

(** The page requests of a call are those of the first pages, in order,
    and there are no more of them than pages computed. *)
Lemma search_pdfs_starts self api query n :
  ∃ k, (k <= Z.to_nat (Z.min 10 ((n + 9) / 10)))%nat
       ∧ request_starts (snd (search_pdfs self api query n))
         = map start_of (Py.range (Z.of_nat k)).
Proof.
  destruct (string_dec (PyStr.strip query) "") as [Hs|Hs].
  - rewrite (search_pdfs_blank _ _ _ _ Hs). exists 0%nat. split; [lia|reflexivity].
  - rewrite (search_pdfs_nonblank _ _ _ _ Hs).
    destruct (search_loop_starts self api (PyStr.strip query) n
                (Py.range (Z.min 10 ((n + 9) / 10))) []) as (k & Hk & Hst).
    unfold Py.range in Hk at 1. rewrite length_map, length_seq in Hk.
    exists k. split; [exact Hk|]. rewrite Hst, firstn_range; auto.
Qed.

Lemma length_starts_range k : length (map start_of (Py.range (Z.of_nat k))) = k.
Proof. unfold Py.range. rewrite !length_map, length_seq. lia. Qed.

Lemma starts_emit_get u p r :
  request_starts (snd (emit (EGet u p) r)) = p_start p :: request_starts (snd r).
Proof. reflexivity. Qed.

Lemma starts_emit_sleep secs r :
  request_starts (snd (emit (ESleep secs) r)) = request_starts (snd r).
Proof. reflexivity. Qed.

(** With one page left, that page is requested and no other. *)
Lemma search_loop_single self api q n i acc :
  request_starts (snd (search_loop self api q n [i] acc)) = [start_of i].
Proof.
  destruct (search_loop_head self api q n i [] acc) as (tl & Hhd).
  destruct (search_loop_starts self api q n [i] acc) as (j & Hj & Hst).
  rewrite Hst in *.
  destruct j as [|[|j]]; simpl in *; [discriminate|reflexivity|lia].
Qed.

(** C4, as the code has it.  For every count the page requests of a call
    are those of the pages 0, 1, 2, ... in order, the page of ordinal [i]
    with start offset [i * 10 + 1]; there are at most
    [min(10, ceil(count / 10))] of them (none when that number is not
    positive), so never more than 10.  For a count of 15 the requests are a
    prefix of the offsets 1 and 11, and they are exactly these two when the
    query is not blank and the first page is fetched, parsed and scanned
    without reaching the count. *)
Theorem page_requests self api query n :
  let starts := request_starts (snd (search_pdfs self api query n)) in
  (length starts <= Z.to_nat (Z.min 10 (ceil_div n 10)))%nat
  ∧ (Z.of_nat (length starts) <= Z.max 0 (Z.min 10 (ceil_div n 10)))%Z
  ∧ (length starts <= 10)%nat
  ∧ starts = map (fun i => i * 10 + 1)%Z (Py.range (Z.of_nat (length starts)))
  ∧ (n = 15%Z ->
     (starts = [] ∨ starts = [1%Z] ∨ starts = [1%Z; 11%Z])
     ∧ (∀ body acc,
          PyStr.strip query <> "" ->
          api (base_url self) (page_params self (PyStr.strip query) 0)
          = Response 200 (Some body) ->
          scan_page 15 body [] = ScanDone acc ->
          starts = [1%Z; 11%Z])).
Proof.
  intros starts.
  destruct (search_pdfs_starts self api query n) as (k & Hk & Hst).
  fold starts in Hst.
  assert (Hlen : length starts = k) by (rewrite Hst; apply length_starts_range).
  rewrite <- ceil_div_10. rewrite Hlen.
  split; [exact Hk|]. split; [lia|]. split; [lia|]. split; [exact Hst|].
  intros ->. change (Z.to_nat (Z.min 10 ((15 + 9) / 10))) with 2%nat in Hk.
  split.
  - rewrite Hst. destruct k as [|[|[|k]]]; [auto|auto|auto|lia].
  - intros body acc Hs Hok Hscan. subst starts.
    rewrite (search_pdfs_nonblank _ _ _ _ Hs).
    change (Py.range (Z.min 10 ((15 + 9) / 10))) with [0%Z; 1%Z].
    rewrite (search_loop_page _ _ _ _ _ _ _ _ Hok), Hscan.
    rewrite starts_emit_get, starts_emit_sleep, search_loop_single.
    reflexivity.
Qed.

Lemma page_requests_witness :
  request_starts (snd (search_pdfs Sample.dl Sample.api "rocq manual" 15))
  = [1%Z; 11%Z].
Proof.
  refine (proj2 (proj2 (proj2 (proj2 (proj2
            (page_requests Sample.dl Sample.api "rocq manual" 15)))) eq_refl)
            Sample.page1
            ["http://a.example/one.PDF"; "http://c.example/two.pdf"] _ _ _).
  - discriminate.
  - reflexivity.
  - vm_compute. reflexivity.
Defined.

(** C4 fails when the first page is refused: for a count of 15 a single
    page is requested, offset 1, although the list (empty) is far from the
    count. *)
Lemma single_request_when_first_page_refused :
  let r := search_pdfs Sample.dl Sample.api_403 "rocq manual" 15 in
  request_starts (snd r) = [1%Z]
  ∧ fst r = Returned []
  ∧ ¬ (request_starts (snd r) = [1%Z; 11%Z]
       ∨ ∃ urls, fst r = Returned urls ∧ (Py.len urls >= 15)%Z).
Proof.
  split; [reflexivity|]. split; [reflexivity|].
  intros [H|(urls & H & Hlen)]; [discriminate H|].
  vm_compute in H. injection H as <-. vm_compute in Hlen. apply Hlen. reflexivity.
Qed.

(* ===================================================================== *)
(** * Facts about file names *)
(* ===================================================================== *)

Lemma string_length_app s t :
  String.length (s +:+ t) = (String.length s + String.length t)%nat.
Proof.
  induction s as [|c s IH]; [reflexivity|].
  change (S (String.length (s +:+ t)) = S (String.length s + String.length t)).
  rewrite IH. reflexivity.
Qed.

Lemma string_app_assoc s t u : (s +:+ t) +:+ u = s +:+ (t +:+ u).
Proof.
  induction s as [|c s IH]; [reflexivity|].
  change (String c ((s +:+ t) +:+ u) = String c (s +:+ (t +:+ u))).
  rewrite IH. reflexivity.
Qed.

Lemma string_app_cancel_r s1 s2 t : s1 +:+ t = s2 +:+ t -> s1 = s2.
Proof.
  revert s2. induction s1 as [|c s1 IH]; intros [|d s2] H.
  - reflexivity.
  - apply (f_equal String.length) in H.
    rewrite !string_length_app in H. simpl in H. lia.
  - apply (f_equal String.length) in H.
    rewrite !string_length_app in H. simpl in H. lia.
  - change (String c (s1 +:+ t) = String d (s2 +:+ t)) in H.
    injection H as -> H. f_equal. apply IH, H.
Qed.

Lemma path_join_prefix a : ∃ pre, ∀ b, path_join a b = pre +:+ b.
Proof.
  destruct a as [|c a].
  - exists "". reflexivity.
  - unfold path_join. destruct (PyStr.endswith (String c a) "/").
    + exists (String c a). reflexivity.
    + exists (String c a +:+ "/"). intros b.
      rewrite string_app_assoc. reflexivity.
Qed.

(** Two positions of the list never share a file. *)
Lemma document_inj output_dir i j :
  document output_dir i = document output_dir j -> i = j.
Proof.
  unfold document. destruct (path_join_prefix output_dir) as [pre Hpre].
  rewrite !Hpre. intros H.
  apply String.app_inj in H. apply String.app_inj in H.
  apply string_app_cancel_r in H. apply (inj pretty) in H. exact H.
Qed.

(* ===================================================================== *)
(** * Facts about one download attempt *)
(* ===================================================================== *)


Lemma write_chunks_lookup_ne filename chunks p :
  p <> filename ->
  forall fs, write_chunks filename chunks fs !! p = fs !! p.
Proof.
  intros Hne. unfold write_chunks.
  induction chunks as [|data chunks IH]; intros fs; simpl; [reflexivity|].
  rewrite IH. unfold write_chunk. apply lookup_alter_ne. congruence.
Qed.

Section AttemptFacts.

Variable w : world.
Variable output_dir : string.







End AttemptFacts.

(* ===================================================================== *)
(** * Facts about the loop over the URLs *)
(* ===================================================================== *)


Section LoopOverUrls.

Variable w : world.
Variable output_dir : string.

Let doc (i : nat) : string := document output_dir i.


Lemma download_one_slept i url st :
  slept (download_one w output_dir i url st) = (slept st + 1)%Z.
Proof.
  unfold download_one, attempt, save_body, handle.
  repeat case_match; simplify_eq; reflexivity.
Qed.


Lemma download_loop_slept urls :
  forall i st,
    slept (download_loop w output_dir i urls st)
    = (slept st + Z.of_nat (length urls))%Z.
Proof.
  induction urls as [|url rest IH]; intros i st; simpl; [lia|].
  rewrite IH, download_one_slept. lia.
Qed.


End LoopOverUrls.

(* ===================================================================== *)
(** * Retrieval: the properties *)
(* ===================================================================== *)


(** A body cut off while it is streamed leaves what was written of it on
    disk, under an outcome that is a failure. *)
Example partial_file_after_broken_stream :
  let st := download_pdfs Sample.web "downloaded_pdfs"
              ["http://f.example/cut.pdf"] ∅ ∅ in
  outcomes (log st) = [Failed ConnectionError "Connection error"]
  ∧ files st !! document "downloaded_pdfs" 1 = Some [x25; x50].
Proof. split; vm_compute; reflexivity. Qed.

(** The sample list run on an empty disk: a success, a wrong content type,
    a status 404, an empty body and a timeout, in the order of the URLs;
    only the first document is on disk afterwards. *)
Example sample_download :
  let st := download_pdfs Sample.web "downloaded_pdfs" Sample.urls ∅ ∅ in
  outcomes (log st)
  = [Success "downloaded_pdfs/document_1.pdf";
     SkippedWrongType "text/html";
     SkippedHTTPError 404;
     Failed EmptyDownload "Downloaded file is empty";
     Failed Timeout "Request timed out"]
  ∧ map_to_list (files st)
    = [("downloaded_pdfs/document_1.pdf", [x25; x50; x44; x46])]
  ∧ slept st = 5%Z.
Proof. repeat split; vm_compute; reflexivity. Qed.

(* ===================================================================== *)
(** * Discovery: what a search computes *)
(* ===================================================================== *)

Lemma contains_obj key fields :
  Py.contains key (JObj fields)
  = inr (match Py.assoc key fields with Some _ => true | None => false end).
Proof.
  simpl. f_equal. induction fields as [|[k v] rest IH]; simpl; [reflexivity|].
  destruct (String.eqb k key); [reflexivity|exact IH].
Qed.

Lemma reply_body_none r : reply_body r = None -> aborts r = true.
Proof.
  destruct r as [|status [body|]]; simpl; auto.
  - destruct (status =? 200)%Z; [discriminate|reflexivity].
  - intros _. apply orb_true_r.
Qed.

Lemma reply_body_some r body :
  reply_body r = Some body -> r = Response 200 (Some body).
Proof.
  destruct r as [|status [b|]]; simpl; try discriminate.
  destruct (Z.eqb_spec status 200) as [->|]; [|discriminate].
  intros H. injection H as ->. reflexivity.
Qed.

Lemma firstn_app_full {A} (l1 l2 : list A) k :
  (length l1 = k)%nat -> firstn k (l1 ++ l2) = l1.
Proof. intros <-. apply take_app_length. Qed.

Lemma firstn_app_enough {A} (l1 l2 : list A) k :
  (k <= length l1)%nat -> firstn k (l1 ++ l2) = firstn k l1.
Proof. intros H. apply take_app_le, H. Qed.

(** The scan of shaped items: the links that end in [.pdf] are appended in
    order until the count is reached. *)
Lemma scan_items_shaped n items :
  forall acc,
    (Py.len acc < n)%Z ->
    forallb shaped_item items = true ->
    let all :=
      acc ++ filter (fun u => is_pdf_link u = true) (omap link_of items) in
    scan_items n items acc
    = if (Py.len all <? n)%Z then ScanDone all
      else ScanFull (firstn (Z.to_nat n) all).
Proof.
  induction items as [|item rest IH]; intros acc Hlen Hshape all; subst all.
  - simpl. rewrite app_nil_r.
    destruct (Z.ltb_spec (Py.len acc) n); [reflexivity|lia].
  - cbn [forallb] in Hshape. apply andb_true_iff in Hshape as [Hitem Hrest].
    destruct item as [| | | | |fields]; try discriminate Hitem.
    cbn [scan_items]. rewrite contains_obj.
    cbn [omap list_omap link_of]. cbn [shaped_item] in Hitem.
    unfold Py.getitem.
    destruct (Py.assoc "link" fields) as [[| | |link| |]|];
      try discriminate Hitem; [|apply IH; assumption].
    change (PyStr.endswith (PyStr.lower link) ".pdf") with (is_pdf_link link).
    destruct (is_pdf_link link) eqn:Hext.
    + rewrite filter_cons_True by exact Hext.
      destruct (Z.geb_spec (Py.len (acc ++ [link])) n) as [Hge|Hlt].
      * assert (Hfull : length (acc ++ [link]) = Z.to_nat n).
        { unfold Py.len in *. rewrite length_app in *. simpl in *. lia. }
        set (more := filter (fun u => is_pdf_link u = true)
                       (omap link_of rest)).
        rewrite (cons_middle link acc more), (app_assoc acc [link] more).
        rewrite (firstn_app_full (acc ++ [link]) _ _ Hfull).
        destruct (Z.ltb_spec (Py.len ((acc ++ [link]) ++ more)) n) as [Hlt|_];
          [|reflexivity].
        unfold Py.len in Hlt. rewrite length_app in Hlt. lia.
      * rewrite (IH (acc ++ [link]) Hlt Hrest). cbv zeta.
        rewrite <- app_assoc. reflexivity.
    + rewrite filter_cons_False by (rewrite Hext; discriminate).
      apply IH; assumption.
Qed.

Lemma scan_page_shaped n body acc :
  (Py.len acc < n)%Z ->
  shaped_page body = true ->
  let all := acc ++ pdf_links body in
  scan_page n body acc
  = if (Py.len all <? n)%Z then ScanDone all
    else ScanFull (firstn (Z.to_nat n) all).
Proof.
  intros Hlen Hshape all. subst all.
  destruct body as [| | | | |fields]; try discriminate Hshape.
  unfold scan_page, pdf_links. rewrite contains_obj.
  cbn [shaped_page] in Hshape. cbn [page_items]. unfold Py.getitem.
  destruct (Py.assoc "items" fields) as [[| | | |items|]|];
    try discriminate Hshape.
  - cbn [Py.iter]. apply scan_items_shaped; assumption.
  - simpl. rewrite app_nil_r.
    destruct (Z.ltb_spec (Py.len acc) n); [reflexivity|lia].
Qed.

Lemma search_loop_shaped self api q n pages :
  forall acc,
    (Py.len acc < n)%Z ->
    Forall (fun body => shaped_page body = true)
      (served_pages self api q pages) ->
    fst (search_loop self api q n pages acc)
    = Returned (firstn (Z.to_nat n)
                  (acc ++ concat (map pdf_links (served_pages self api q pages)))).
Proof.
  assert (Hshort : forall acc : list string,
             (Py.len acc < n)%Z -> firstn (Z.to_nat n) acc = acc).
  { intros acc H. apply firstn_all2. unfold Py.len in H. lia. }
  induction pages as [|i rest IH]; intros acc Hlen Hshape.
  - simpl. rewrite app_nil_r, finish_result, Hshort; auto.
  - cbn [served_pages] in *.
    destruct (reply_body (api (base_url self) (page_params self q i)))
      as [body|] eqn:Hbody.
    + apply reply_body_some in Hbody.
      rewrite (search_loop_page _ _ _ _ _ _ _ _ Hbody).
      apply Forall_cons in Hshape as [Hpage Hrest].
      rewrite (scan_page_shaped n body acc Hlen Hpage). cbv zeta.
      cbn [map concat]. rewrite app_assoc.
      destruct (Z.ltb_spec (Py.len (acc ++ pdf_links body)) n) as [Hlt|Hge].
      * cbn [emit fst]. apply IH; assumption.
      * cbn [emit fst]. f_equal.
        assert (Hk : (Z.to_nat n <= length (acc ++ pdf_links body))%nat)
          by (unfold Py.len in Hge; lia).
        rewrite (firstn_app_enough _ _ _ Hk).
        unfold Py.slice_to.
        destruct (Z.leb_spec 0 n); [|unfold Py.len in Hlen; lia].
        apply firstn_all2. rewrite length_take. lia.
    + apply reply_body_none in Hbody.
      rewrite (search_loop_abort _ _ _ _ _ _ _ Hbody).
      cbn [emit fst map concat]. rewrite app_nil_r, finish_result, Hshort; auto.
Qed.

(** Every event of the loop is a request for one of its pages, a pause of
    one second, or a save; the pauses are no more than the requests and a
    save ends the run. *)
Lemma search_loop_events self api q n pages :
  forall acc,
    let tr := snd (search_loop self api q n pages acc) in
    Forall (fun e =>
              match e with
              | EGet u p => u = base_url self ∧ ∃ i, p = page_params self q i
              | ESleep s => s = 1%Z
              | ESave _ q' => q' = q
              end) tr
    ∧ (0 <= seconds_slept tr <= Z.of_nat (length (request_starts tr)))%Z
    ∧ (∀ tr1 urls q' tr2, tr = tr1 ++ ESave urls q' :: tr2 -> tr2 = []).
Proof.
  assert (Hfin : forall acc,
             let tr := snd (finish q acc) in
             Forall (fun e =>
                       match e with
                       | EGet u p =>
                           u = base_url self ∧ ∃ i, p = page_params self q i
                       | ESleep s => s = 1%Z
                       | ESave _ q' => q' = q
                       end) tr
             ∧ seconds_slept tr = 0%Z ∧ request_starts tr = []
             ∧ (∀ tr1 urls q' tr2, tr = tr1 ++ ESave urls q' :: tr2 -> tr2 = [])).
  { intros [|u acc]; simpl.
    - repeat split; auto. intros [|? ?] ? ? ? H; discriminate.
    - repeat split; auto.
      intros [|? [|? ?]] ? ? ? H; simpl in H; try discriminate.
      injection H as _ _ <-. reflexivity. }
  induction pages as [|i rest IH]; intros acc tr; subst tr.
  - cbn [search_loop]. destruct (Hfin acc) as (H1 & H2 & H3 & H4).
    rewrite H2, H3. repeat split; auto; simpl; lia.
  - destruct (reply_cases (api (base_url self) (page_params self q i)))
      as [Hab|[body Hok]].
    + rewrite (search_loop_abort _ _ _ _ _ _ _ Hab). cbn [emit snd].
      destruct (Hfin acc) as (H1 & H2 & H3 & H4).
      split; [constructor; [split; eauto|exact H1]|].
      split; [cbn [seconds_slept fold_right request_starts omap list_omap];
              fold (seconds_slept (snd (finish q acc)));
              fold (request_starts (snd (finish q acc)));
              rewrite H2, H3; simpl; lia|].
      intros [|e tr1] urls q' tr2 H; simpl in H; [discriminate|].
      injection H as _ H. eapply H4, H.
    + rewrite (search_loop_page _ _ _ _ _ _ _ _ Hok).
      destruct (scan_page n body acc) as [acc'|acc'|e]; cbn [emit snd fst].
      * destruct (IH acc') as (H1 & H2 & H3).
        split; [constructor; [split; eauto|constructor; [reflexivity|exact H1]]|].
        split.
        { cbn [seconds_slept fold_right request_starts omap list_omap].
          fold (seconds_slept (snd (search_loop self api q n rest acc'))).
          fold (request_starts (snd (search_loop self api q n rest acc'))).
          cbn [length]. lia. }
        intros [|e1 [|e2 tr1]] urls q' tr2 H; simpl in H; try discriminate.
        injection H as _ _ H. eapply H3, H.
      * split; [repeat constructor; eauto|]. split; [simpl; lia|].
        intros [|e1 [|e2 [|e3 tr1]]] urls q' tr2 H; simpl in H;
          try discriminate.
        injection H as _ _ _ <-. reflexivity.
      * split; [repeat constructor; eauto|]. split; [simpl; lia|].
        intros [|e1 [|e2 tr1]] urls q' tr2 H; simpl in H; discriminate.
Qed.

(** The events of a call are those of its loop over the pages, run on the
    stripped query, or none at all. *)
Lemma search_pdfs_events self api query n :
  snd (search_pdfs self api query n) = []
  ∨ ∃ pages acc,
      snd (search_pdfs self api query n)
      = snd (search_loop self api (PyStr.strip query) n pages acc).
Proof.
  destruct (string_dec (PyStr.strip query) "") as [Hs|Hs].
  - left. rewrite (search_pdfs_blank _ _ _ _ Hs). reflexivity.
  - right. rewrite (search_pdfs_nonblank _ _ _ _ Hs). eauto.
Qed.

(** X2. Every request of [search_pdfs] goes to the base URL of the object
    with its key and engine id, the stripped query followed by
    [ filetype:pdf], [fileType=pdf] and [alt=json]; nothing else is ever
    requested. *)
Theorem search_request_parameters self api query n :
  Forall (fun e =>
            match e with
            | EGet u p =>
                u = base_url self
                ∧ p_key p = api_key self ∧ p_cx p = cx_id self
                ∧ p_q p = PyStr.strip query +:+ " filetype:pdf"
                ∧ p_fileType p = "pdf" ∧ p_alt p = "json"
            | _ => True
            end) (snd (search_pdfs self api query n)).
Proof.
  destruct (search_pdfs_events self api query n) as [->|(pages & acc & ->)];
    [constructor|].
  destruct (search_loop_events self api (PyStr.strip query) n pages acc)
    as (Hev & _).
  eapply Forall_impl; [exact Hev|].
  intros [u p|s|urls q'] H; auto.
  destruct H as (-> & i & ->). repeat split; reflexivity.
Qed.

(** X3. [search_pdfs] sleeps one second at a time and no more often than
    it requests pages: at most 10 seconds in a call, whatever the count. *)
Theorem search_pacing_bound self api query n :
  let tr := snd (search_pdfs self api query n) in
  Forall (fun e => match e with ESleep s => s = 1%Z | _ => True end) tr
  ∧ (0 <= seconds_slept tr <= Z.of_nat (length (request_starts tr)))%Z
  ∧ (seconds_slept tr <= 10)%Z.
Proof.
  intros tr.
  assert (Hten : (length (request_starts tr) <= 10)%nat).
  { subst tr. destruct (search_pdfs_starts self api query n) as (k & Hk & ->).
    rewrite length_starts_range. lia. }
  assert (H : Forall (fun e => match e with ESleep s => s = 1%Z | _ => True end) tr
              ∧ (0 <= seconds_slept tr <= Z.of_nat (length (request_starts tr)))%Z).
  { subst tr.
    destruct (search_pdfs_events self api query n) as [->|(pages & acc & ->)].
    - split; [constructor|simpl; lia].
    - destruct (search_loop_events self api (PyStr.strip query) n pages acc)
        as (Hev & Hsl & _).
      split; [|exact Hsl].
      eapply Forall_impl; [exact Hev|]. intros [u p|s|urls q'] He; auto. }
  destruct H as [H1 H2]. split; [exact H1|]. split; [exact H2|lia].
Qed.

(** X4. When [search_pdfs] saves, the save is the last thing it does: no
    page is requested and no pause is taken after the record is written. *)
Theorem search_save_is_last self api query n tr1 urls q tr2 :
  snd (search_pdfs self api query n) = tr1 ++ ESave urls q :: tr2 ->
  tr2 = [] ∧ q = PyStr.strip query.
Proof.
  destruct (search_pdfs_events self api query n) as [->|(pages & acc & ->)].
  - intros H. destruct tr1; discriminate.
  - intros H.
    destruct (search_loop_events self api (PyStr.strip query) n pages acc)
      as (Hev & _ & Hlast).
    split; [eapply Hlast, H|].
    rewrite H in Hev. apply Forall_app in Hev as [_ Hev].
    apply Forall_cons in Hev as [Hq _]. exact Hq.
Qed.

Lemma search_save_is_last_witness :
  @nil event = []
  ∧ "rocq manual" = PyStr.strip " rocq manual ".
Proof.
  refine (search_save_is_last Sample.dl Sample.api " rocq manual " 2
            [EGet (base_url Sample.dl) (page_params Sample.dl "rocq manual" 0)]
            ["http://a.example/one.PDF"; "http://c.example/two.pdf"]
            "rocq manual" [] _).
  vm_compute. reflexivity.
Defined.

(* ===================================================================== *)
(** * The record of the links: the properties *)
(* ===================================================================== *)

Lemma chars_app s t : PyStr.chars (s +:+ t) = PyStr.chars s ++ PyStr.chars t.
Proof.
  induction s as [|c s IH]; [reflexivity|].
  change (c :: PyStr.chars (s +:+ t) = c :: PyStr.chars s ++ PyStr.chars t).
  rewrite IH. reflexivity.
Qed.

Lemma chars_filter keep s c :
  In c (PyStr.chars (PyStr.filter_chars keep s)) -> keep c = true.
Proof.
  induction s as [|a s IH]; simpl; [tauto|].
  destruct (keep a) eqn:Ha; [|exact IH].
  simpl. intros [<-|H]; auto.
Qed.

Lemma chars_rstrip s c :
  In c (PyStr.chars (PyStr.rstrip s)) -> In c (PyStr.chars s).
Proof.
  induction s as [|a s IH]; simpl; [tauto|].
  destruct (PyStr.rstrip s) as [|b r] eqn:Hr.
  - destruct (PyStr.isspace a); simpl; tauto.
  - simpl. intros [<-|H]; [auto|]. right. apply IH. exact H.
Qed.

(** X5. The part of the file name taken from the query holds only
    letters, digits, spaces, hyphens and underscores; so the name of the
    record holds a slash only if the time stamp does, and the query cannot
    move the record to another directory. *)
Theorem links_filename_safe timestamp query :
  (∀ c, In c (PyStr.chars (safe_query query)) -> keep_in_name c = true)
  ∧ (¬ In "/"%char (PyStr.chars timestamp) ->
     ¬ In "/"%char (PyStr.chars (links_filename timestamp query))).
Proof.
  assert (Hsafe : ∀ c, In c (PyStr.chars (safe_query query)) ->
                       keep_in_name c = true).
  { intros c H. unfold safe_query in H.
    apply chars_rstrip in H. eapply chars_filter, H. }
  split; [exact Hsafe|].
  intros Hts. unfold links_filename.
  destruct (PyStr.truthy (safe_query query)).
  - rewrite !chars_app, !in_app_iff.
    intros [H|[H|[H|[H|H]]]]; auto.
    + simpl in H. repeat (destruct H as [H|H]; [discriminate H|]). exact H.
    + apply Hsafe in H. discriminate H.
    + simpl in H. destruct H as [H|[]]. discriminate H.
    + simpl in H. repeat (destruct H as [H|H]; [discriminate H|]). exact H.
  - rewrite !chars_app, !in_app_iff.
    intros [H|[H|H]]; auto.
    + simpl in H. repeat (destruct H as [H|H]; [discriminate H|]). exact H.
    + simpl in H. repeat (destruct H as [H|H]; [discriminate H|]). exact H.
Qed.

Lemma links_filename_safe_witness :
  ¬ In "/"%char
      (PyStr.chars (links_filename "20240131_120000" "../../etc/rocq manual")).
Proof.
  refine (proj2 (links_filename_safe "20240131_120000"
                   "../../etc/rocq manual") _).
  simpl. intros H. repeat (destruct H as [H|H]; [discriminate H|]). exact H.
Defined.

(* ===================================================================== *)
(** * The constructor and the command line: the properties *)
(* ===================================================================== *)

(** X7. A downloader that was constructed has a key and an engine id that
    are not empty and the fixed base URL; a credential given as a
    non-empty argument is the one it holds, whatever the environment
    says; a credential not given, or given empty, is the one of the
    environment. *)
Theorem init_credentials getenv key cx d :
  init getenv key cx = Some d ->
  api_key d <> "" ∧ cx_id d <> ""
  ∧ base_url d = "https://www.googleapis.com/customsearch/v1"
  ∧ (∀ k, key = Some k -> k <> "" -> api_key d = k)
  ∧ (∀ c, cx = Some c -> c <> "" -> cx_id d = c)
  ∧ (key = None ∨ key = Some "" -> getenv "GOOGLE_API_KEY" = Some (api_key d))
  ∧ (cx = None ∨ cx = Some "" -> getenv "GOOGLE_CX_ID" = Some (cx_id d)).
Proof.
  unfold init.
  destruct key as [[|a k]|], cx as [[|b c]|];
    destruct (getenv "GOOGLE_API_KEY") as [[|a' k']|];
    destruct (getenv "GOOGLE_CX_ID") as [[|b' c']|];
    simpl; intros H; try discriminate H; injection H as <-; simpl;
    repeat split; try congruence;
    try (intros ? E ?; congruence); try (intros [E|E]; congruence).
Qed.

Lemma init_credentials_witness :
  api_key Sample.dl <> "" ∧ cx_id Sample.dl <> "".
Proof.
  destruct (init_credentials (fun _ => None) (Some "key") (Some "engine")
              Sample.dl eq_refl) as (H1 & H2 & _).
  split; assumption.
Defined.

(** X8. Called without arguments, as [main] does, the constructor fails
    exactly when the environment lacks the key or the engine id, or holds
    an empty one. *)
Theorem init_fails_without_credentials getenv :
  init getenv None None = None
  ↔ (getenv "GOOGLE_API_KEY" = None ∨ getenv "GOOGLE_API_KEY" = Some ""
     ∨ getenv "GOOGLE_CX_ID" = None ∨ getenv "GOOGLE_CX_ID" = Some "").
Proof.
  unfold init.
  destruct (getenv "GOOGLE_API_KEY") as [[|a k]|];
    destruct (getenv "GOOGLE_CX_ID") as [[|b c]|]; simpl;
    split; intros H; auto 6; try discriminate;
    repeat (destruct H as [H|H]; try discriminate).
Qed.

(* ===================================================================== *)
(** * Retrieval: what an attempt does, case by case *)
(* ===================================================================== *)


Section AttemptExact.

Variable w : world.
Variable output_dir : string.






End AttemptExact.

(* ===================================================================== *)
(** * Retrieval: more properties *)
(* ===================================================================== *)














(* ===================================================================== *)
(** * The command line and the query: more properties *)
(* ===================================================================== *)

Lemma rstrip_cons c s :
  PyStr.rstrip (String c s)
  = match PyStr.rstrip s with
    | EmptyString =>
        if PyStr.isspace c then EmptyString else String c EmptyString
    | r => String c r
    end.
Proof. reflexivity. Qed.

Lemma rstrip_idem s : PyStr.rstrip (PyStr.rstrip s) = PyStr.rstrip s.
Proof.
  induction s as [|c s IH]; [reflexivity|].
  rewrite rstrip_cons. destruct (PyStr.rstrip s) as [|b r] eqn:Hr.
  - destruct (PyStr.isspace c) eqn:Hc; [reflexivity|].
    rewrite rstrip_cons. cbn [PyStr.rstrip]. rewrite Hc. reflexivity.
  - rewrite rstrip_cons, IH. reflexivity.
Qed.

Lemma lstrip_fixed s : PyStr.lstrip (PyStr.lstrip s) = PyStr.lstrip s.
Proof.
  induction s as [|c s IH]; [reflexivity|].
  cbn [PyStr.lstrip]. destruct (PyStr.isspace c) eqn:Hc; [exact IH|].
  cbn [PyStr.lstrip]. rewrite Hc. reflexivity.
Qed.

Lemma lstrip_rstrip s :
  PyStr.lstrip s = s -> PyStr.lstrip (PyStr.rstrip s) = PyStr.rstrip s.
Proof.
  destruct s as [|c s]; [reflexivity|]. intros H.
  assert (Hc : PyStr.isspace c = false).
  { cbn [PyStr.lstrip] in H. destruct (PyStr.isspace c) eqn:Hc; [|reflexivity].
    exfalso. apply (f_equal String.length) in H.
    assert (Hle : forall t, (String.length (PyStr.lstrip t) <= String.length t)%nat).
    { induction t as [|a t IHt]; simpl; [lia|].
      destruct (PyStr.isspace a); simpl; lia. }
    specialize (Hle s). simpl in H. lia. }
  rewrite rstrip_cons. destruct (PyStr.rstrip s);
    rewrite ?Hc; cbn [PyStr.lstrip]; rewrite Hc; reflexivity.
Qed.

Lemma strip_idem s : PyStr.strip (PyStr.strip s) = PyStr.strip s.
Proof.
  unfold PyStr.strip.
  rewrite (lstrip_rstrip (PyStr.lstrip s) (lstrip_fixed s)).
  apply rstrip_idem.
Qed.

(** X18. [search_pdfs] looks at its query through [strip] only: two
    queries that strip to the same text give the same run, and a query
    stripped beforehand, as [main] does, gives the run of the query as
    typed. *)
Theorem search_ignores_outer_whitespace self api n :
  (∀ q1 q2,
     PyStr.strip q1 = PyStr.strip q2 ->
     search_pdfs self api q1 n = search_pdfs self api q2 n)
  ∧ (∀ q, search_pdfs self api (PyStr.strip q) n = search_pdfs self api q n).
Proof.
  assert (H : ∀ q1 q2,
             PyStr.strip q1 = PyStr.strip q2 ->
             search_pdfs self api q1 n = search_pdfs self api q2 n).
  { intros q1 q2 Heq.
    destruct (string_dec (PyStr.strip q1) "") as [Hs|Hs].
    - rewrite (search_pdfs_blank _ _ _ _ Hs).
      rewrite Heq in Hs. rewrite (search_pdfs_blank _ _ _ _ Hs). reflexivity.
    - rewrite (search_pdfs_nonblank _ _ _ _ Hs).
      rewrite Heq in Hs. rewrite (search_pdfs_nonblank _ _ _ _ Hs).
      rewrite Heq. reflexivity. }
  split; [exact H|]. intros q. apply H, strip_idem.
Qed.


(** X19. [main] sends a request only when the environment holds both
    credentials and the first line typed is not blank; the requests it
    sends are those of the search for the stripped line with the count
    made of the second line. *)
Theorem main_requests_need_credentials_and_query
    getenv api w stdin files0 dirs0 :
  snd (main getenv api w stdin files0 dirs0) <> [] ->
  ∃ d line count rest,
    init getenv None None = Some d
    ∧ stdin = line :: count :: rest
    ∧ PyStr.strip line <> ""
    ∧ snd (main getenv api w stdin files0 dirs0)
      = snd (search_pdfs d api (PyStr.strip line)
               (main_num_results (py_int w count))).
Proof.
  unfold main.
  destruct (init getenv None None) as [d|]; [|intros H; contradiction].
  destruct stdin as [|line [|count rest]]; try (intros H; contradiction).
  { destruct (negb (PyStr.truthy (PyStr.strip line)));
      intros H; contradiction. }
  destruct (PyStr.strip line) as [|c s] eqn:Hs; [intros H; contradiction|].
  cbn [PyStr.truthy negb].
  destruct (search_pdfs d api (String c s) (main_num_results (py_int w count)))
    as [found events] eqn:Hrun.
  intros H. exists d, line, count, rest.
  rewrite Hs, Hrun. repeat split; try discriminate.
  cbn [snd].
  destruct found as [[|u urls]|e]; try reflexivity.
  destruct rest as [|choice rest']; [reflexivity|].
  destruct (String.eqb _ "yes"); reflexivity.
Qed.

Lemma main_requests_need_credentials_and_query_witness :
  ∃ d line count rest,
    init Sample.env None None = Some d
    ∧ ["rocq manual"; "4"; "no"] = line :: count :: rest
    ∧ PyStr.strip line <> ""
    ∧ snd (main Sample.env Sample.api Sample.web
             ["rocq manual"; "4"; "no"] ∅ ∅)
      = snd (search_pdfs d Sample.api (PyStr.strip line)
               (main_num_results (py_int Sample.web count))).
Proof.
  apply main_requests_need_credentials_and_query.
  vm_compute. discriminate.
Defined.



(* ===================================================================== *)
(** * Discovery with the calls that can fail: facts *)
(* ===================================================================== *)

Section FullLoopFacts.

Variable self : downloader.
Variable sw : Full.search_world.
Variable q : string.
Variable n : Z.

Let get (i : Z) : event := EGet (base_url self) (page_params self q i).
Let reply (i : Z) : Full.page_reply :=
  Full.get sw (base_url self) (page_params self q i).

Lemma page_reply_cases (r : Full.page_reply) :
  page_aborts r = true
  ∨ (∃ body, r = Full.PageResponse 200 (Full.JsonValue body))
  ∨ r = Full.PageResponse 200 Full.JsonOtherError.
Proof.
  destruct r as [|status body]; simpl; auto.
  destruct (Z.eqb_spec status 200) as [->|]; simpl; auto.
  destruct body; eauto.
Qed.

Lemma full_loop_abort i rest acc :
  page_aborts (reply i) = true ->
  Full.search_loop self sw q n (i :: rest) acc
  = Full.emit (get i) (Full.finish sw q acc).
Proof.
  unfold reply, get. intros H. cbn [Full.search_loop].
  destruct (Full.get sw _ _) as [|status body]; [reflexivity|].
  simpl in H.
  destruct (Z.eqb_spec status 400); [reflexivity|].
  destruct (Z.eqb_spec status 403); [reflexivity|].
  destruct (Z.eqb_spec status 200); [|reflexivity].
  simpl in *. destruct body; try discriminate H. reflexivity.
Qed.

Lemma full_loop_page i rest acc body :
  reply i = Full.PageResponse 200 (Full.JsonValue body) ->
  Full.search_loop self sw q n (i :: rest) acc =
  Full.emit (get i)
    match scan_page n body acc with
    | ScanRaised e => (Full.Raised (Full.FromScan e), [])
    | ScanFull acc' =>
        Full.save_then_return sw acc' q (Py.slice_to acc' n)
    | ScanDone acc' =>
        Full.emit (ESleep 1) (Full.search_loop self sw q n rest acc')
    end.
Proof.
  unfold reply, get. intros H. cbn [Full.search_loop]. rewrite H. reflexivity.
Qed.

Lemma full_finish_result acc :
  fst (Full.finish sw q acc) = after_save sw q acc.
Proof.
  destruct acc as [|u acc]; [reflexivity|].
  unfold Full.finish, Full.save_then_return, after_save.
  destruct (Full.save_raises sw (u :: acc) q); reflexivity.
Qed.

Lemma full_finish_starts acc :
  request_starts (snd (Full.finish sw q acc)) = [].
Proof.
  destruct acc as [|u acc]; [reflexivity|].
  unfold Full.finish, Full.save_then_return.
  destruct (Full.save_raises sw (u :: acc) q); reflexivity.
Qed.

Lemma full_finish_saves acc :
  saves (snd (Full.finish sw q acc))
  = match acc with [] => [] | _ => [(acc, q)] end.
Proof.
  destruct acc as [|u acc]; [reflexivity|].
  unfold Full.finish, Full.save_then_return.
  destruct (Full.save_raises sw (u :: acc) q); reflexivity.
Qed.

(** Pages served and scanned without reaching the count, then a reply
    that ends pagination: the loop requests these pages and no other, and
    ends as the code after the loop does on the list accumulated. *)
Lemma full_loop_accumulated pre :
  forall acc0 acc j rest,
    accumulated self sw q n pre acc0 = Some acc ->
    page_aborts (reply j) = true ->
    let run := Full.search_loop self sw q n (pre ++ j :: rest) acc0 in
    fst run = after_save sw q acc
    ∧ request_starts (snd run) = map start_of (pre ++ [j])
    ∧ saves (snd run) = match acc with [] => [] | _ => [(acc, q)] end.
Proof.
  induction pre as [|i pre IH]; intros acc0 acc j rest Hacc Hab run; subst run.
  - injection Hacc as <-. cbn [app].
    rewrite (full_loop_abort _ _ _ Hab). cbn [Full.emit fst snd].
    split; [apply full_finish_result|]. split.
    + cbn [request_starts omap list_omap get map].
      fold (request_starts (snd (Full.finish sw q acc0))).
      rewrite full_finish_starts. reflexivity.
    + cbn [saves omap list_omap get].
      fold (saves (snd (Full.finish sw q acc0))).
      apply full_finish_saves.
  - cbn [accumulated] in Hacc. fold (reply i) in Hacc.
    destruct (reply i) as [|status [body| |]] eqn:Hr; try discriminate Hacc.
    destruct (Z.eqb_spec status 200) as [->|]; [|discriminate Hacc].
    cbn [app]. rewrite (full_loop_page _ _ _ _ Hr).
    destruct (scan_page n body acc0) as [acc1|acc1|e]; try discriminate Hacc.
    destruct (IH acc1 acc j rest Hacc Hab) as (H1 & H2 & H3).
    cbn [Full.emit fst snd]. split; [exact H1|]. split.
    + cbn [request_starts omap list_omap get map].
      fold (request_starts
              (snd (Full.search_loop self sw q n (pre ++ j :: rest) acc1))).
      rewrite H2. reflexivity.
    + cbn [saves omap list_omap get].
      fold (saves (snd (Full.search_loop self sw q n (pre ++ j :: rest) acc1))).
      exact H3.
Qed.

(** On shaped pages the loop ends as the code after the loop does on the
    first links ending in [.pdf]. *)
Lemma full_loop_shaped pages :
  forall acc bodies,
    (Py.len acc < n)%Z ->
    served_bodies self sw q pages = Some bodies ->
    Forall (fun body => shaped_page body = true) bodies ->
    fst (Full.search_loop self sw q n pages acc)
    = after_save sw q
        (firstn (Z.to_nat n) (acc ++ concat (map pdf_links bodies))).
Proof.
  assert (Hshort : forall acc : list string,
             (Py.len acc < n)%Z -> firstn (Z.to_nat n) acc = acc).
  { intros acc H. apply firstn_all2. unfold Py.len in H. lia. }
  induction pages as [|i rest IH]; intros acc bodies Hlen Hserved Hshape.
  - injection Hserved as <-. cbn [Full.search_loop map concat].
    rewrite app_nil_r, full_finish_result, Hshort; auto.
  - cbn [served_bodies] in Hserved. fold (reply i) in Hserved.
    destruct (page_reply_cases (reply i)) as [Hab|[[body Hok]|Hcrash]].
    + rewrite (full_loop_abort _ _ _ Hab). cbn [Full.emit fst].
      assert (bodies = []) as ->.
      { destruct (reply i) as [|status b]; [congruence|].
        simpl in Hab. destruct (Z.eqb_spec status 200); [|congruence].
        simpl in Hab. destruct b; try discriminate Hab. congruence. }
      cbn [map concat]. rewrite app_nil_r, full_finish_result, Hshort; auto.
    + rewrite Hok in Hserved. cbn [Z.eqb Pos.eqb] in Hserved.
      destruct (served_bodies self sw q rest) as [more|] eqn:Hrest;
        [|discriminate Hserved].
      injection Hserved as <-.
      apply Forall_cons in Hshape as [Hpage Hmore].
      rewrite (full_loop_page _ _ _ _ Hok).
      rewrite (scan_page_shaped n body acc Hlen Hpage). cbv zeta.
      cbn [map concat]. rewrite app_assoc.
      destruct (Z.ltb_spec (Py.len (acc ++ pdf_links body)) n) as [Hlt|Hge].
      * cbn [Full.emit fst]. apply IH; auto.
      * assert (Hk : (Z.to_nat n <= length (acc ++ pdf_links body))%nat)
          by (unfold Py.len in Hge; lia).
        rewrite (firstn_app_enough _ _ _ Hk).
        set (full := firstn (Z.to_nat n) (acc ++ pdf_links body)).
        assert (Hfull : length full = Z.to_nat n)
          by (subst full; rewrite length_take; lia).
        assert (Hslice : Py.slice_to full n = full).
        { unfold Py.slice_to.
          destruct (Z.leb_spec 0 n); [|unfold Py.len in Hlen; lia].
          apply firstn_all2. lia. }
        rewrite Hslice. unfold Full.save_then_return, after_save.
        cbn [Full.emit fst].
        destruct full as [|u full']; [simpl in Hfull; unfold Py.len in Hlen; lia|].
        destruct (Full.save_raises sw (u :: full') q); reflexivity.
    + rewrite Hcrash in Hserved. discriminate Hserved.
Qed.

End FullLoopFacts.

Lemma full_search_nonblank self sw query n :
  PyStr.strip query <> "" ->
  Full.search_pdfs self sw query n =
  Full.search_loop self sw (PyStr.strip query) n
    (Py.range (Z.min 10 ((n + 9) / 10))) [].
Proof. intros H. unfold Full.search_pdfs. rewrite strip_nonblank; auto. Qed.

Lemma range_split m j :
  (0 <= j < m)%Z ->
  ∃ rest, Py.range m = Py.range j ++ j :: rest.
Proof.
  intros Hj. unfold Py.range.
  replace (Z.to_nat m) with (Z.to_nat j + S (Z.to_nat m - Z.to_nat j - 1))%nat
    by lia.
  rewrite seq_app, map_app. cbn [seq map].
  rewrite Nat.add_0_l, Z2Nat.id by lia. eauto.
Qed.

Lemma range_succ j :
  (0 <= j)%Z -> Py.range (j + 1) = Py.range j ++ [j].
Proof.
  intros Hj. unfold Py.range.
  replace (Z.to_nat (j + 1)) with (Z.to_nat j + 1)%nat by lia.
  rewrite seq_app, map_app. cbn [seq map].
  rewrite Nat.add_0_l, Z2Nat.id by lia. reflexivity.
Qed.

(** In a world where the save does not raise and [response.json()] raises
    nothing but a [JSONDecodeError], the method of [Full] is the first
    model. *)
Lemma search_full_agrees self api query n :
  Full.search_pdfs self (lift_api api) query n
  = (lift_result (fst (search_pdfs self api query n)),
     snd (search_pdfs self api query n)).
Proof.
  unfold Full.search_pdfs, search_pdfs.
  destruct (negb (PyStr.truthy query) || String.eqb (PyStr.strip query) "");
    [reflexivity|].
  generalize (Py.range (Z.min 10 ((n + 9) / 10))) as pages.
  generalize (@nil string) as acc. set (q := PyStr.strip query).
  assert (Hfin : forall acc,
             Full.finish (lift_api api) q acc
             = (lift_result (fst (finish q acc)), snd (finish q acc))).
  { intros [|u acc]; reflexivity. }
  intros acc pages. revert acc.
  induction pages as [|i rest IH]; intros acc; [apply Hfin|].
  destruct (reply_cases (api (base_url self) (page_params self q i)))
    as [Hab|[body Hok]].
  - rewrite (search_loop_abort _ _ _ _ _ _ _ Hab).
    rewrite full_loop_abort.
    + rewrite Hfin. reflexivity.
    + cbn [lift_api Full.get].
      destruct (api _ _) as [|status [b|]]; simpl in *; auto.
  - rewrite (search_loop_page _ _ _ _ _ _ _ _ Hok).
    rewrite (full_loop_page _ _ _ _ _ _ _ body)
      by (cbn [lift_api Full.get]; rewrite Hok; reflexivity).
    destruct (scan_page n body acc) as [acc'|acc'|e]; try reflexivity.
    rewrite IH. reflexivity.
Qed.

(* ===================================================================== *)
(** * Discovery with the calls that can fail: the properties *)
(* ===================================================================== *)

(** C7, as the code has it.  Let the pages before page [j] be served with
    status 200, parsed and scanned without the count being reached, and
    let [acc] be the list accumulated from them; let the request of page
    [j] be answered by status 400, 403 or any other status but 200, by a
    [RequestException], or by a body on which [response.json()] raises a
    [JSONDecodeError].  Then page [j] is the last page requested, and the
    call ends on [acc]: with [acc] empty it returns the empty list and
    nothing is saved; otherwise it saves [acc] once and returns [acc],
    unless that save raises.  In particular a first page so answered
    gives the empty list after a single request. *)
Theorem search_abort_returns_accumulated self sw query n j acc :
  PyStr.strip query <> "" ->
  (0 <= j < Z.min 10 ((n + 9) / 10))%Z ->
  accumulated self sw (PyStr.strip query) n (Py.range j) [] = Some acc ->
  page_aborts
    (Full.get sw (base_url self) (page_params self (PyStr.strip query) j))
  = true ->
  let run := Full.search_pdfs self sw query n in
  request_starts (snd run) = map (fun i => i * 10 + 1)%Z (Py.range (j + 1))
  ∧ saves (snd run)
    = match acc with [] => [] | _ :: _ => [(acc, PyStr.strip query)] end
  ∧ fst run
    = match acc with
      | [] => Full.Returned []
      | _ :: _ =>
          if Full.save_raises sw acc (PyStr.strip query)
          then Full.Raised Full.FromSave
          else Full.Returned acc
      end
  ∧ (j = 0%Z -> acc = [] ∧ run = (Full.Returned [], [EGet (base_url self)
                                     (page_params self (PyStr.strip query) 0)])).
Proof.
  intros Hs Hj Hacc Hab run. subst run.
  rewrite (full_search_nonblank _ _ _ _ Hs).
  destruct (range_split _ _ Hj) as [rest Hrange]. rewrite Hrange.
  destruct (full_loop_accumulated self sw (PyStr.strip query) n
              (Py.range j) [] acc j rest Hacc Hab) as (H1 & H2 & H3).
  split; [rewrite H2, range_succ by lia; reflexivity|].
  split; [exact H3|]. split; [exact H1|].
  intros ->. change (Py.range 0) with (@nil Z) in *.
  injection Hacc as <-. split; [reflexivity|].
  cbn [app]. rewrite (full_loop_abort _ _ _ _ _ _ _ Hab). reflexivity.
Qed.

Lemma search_abort_returns_accumulated_witness :
  fst (Full.search_pdfs Sample.dl (lift_api Sample.api_500_on_page2)
         " rocq manual" 25)
  = Full.Returned ["http://a.example/one.PDF"; "http://c.example/two.pdf"].
Proof.
  refine (proj1 (proj2 (proj2
            (search_abort_returns_accumulated Sample.dl
               (lift_api Sample.api_500_on_page2) " rocq manual" 25 1
               ["http://a.example/one.PDF"; "http://c.example/two.pdf"]
               _ _ _ _)))).
  - discriminate.
  - vm_compute. split; [discriminate|reflexivity].
  - vm_compute. reflexivity.
  - reflexivity.
Defined.

(** C7 fails when the save raises: the first page gives two links, the
    second request is answered by status 500, and the record of the two
    links cannot be opened because the query makes its name too long; the
    exception leaves [search_pdfs], which returns nothing. *)
Lemma search_abort_then_save_raises :
  let run := Full.search_pdfs Sample.dl Sample.world_long_names
               Sample.long_query 25 in
  request_starts (snd run) = [1%Z; 11%Z]
  ∧ Full.get Sample.world_long_names (base_url Sample.dl)
      (page_params Sample.dl Sample.long_query 1)
    = Full.PageResponse 500 Full.JsonDecodeError
  ∧ fst run = Full.Raised Full.FromSave
  ∧ ¬ ∃ urls, fst run = Full.Returned urls.
Proof.
  assert (H : fst (Full.search_pdfs Sample.dl Sample.world_long_names
                     Sample.long_query 25) = Full.Raised Full.FromSave)
    by (vm_compute; reflexivity).
  cbv zeta. rewrite H.
  split; [vm_compute; reflexivity|]. split; [reflexivity|].
  split; [reflexivity|]. intros [urls Hu]. discriminate Hu.
Qed.

(** X1. When the query is not blank, [response.json()] raises nothing but
    a [JSONDecodeError], and the pages served before the first reply that
    ends pagination are shaped as the API documents them, the list
    [search_pdfs] is about to return is made of the first [num_results]
    links ending in [.pdf] of these pages, in the order of the pages and
    of their items, duplicates kept: it returns the empty list as it is,
    and any other list after the save, unless the save raises. *)
Theorem search_returns_first_pdf_links self sw query n bodies :
  PyStr.strip query <> "" ->
  served_bodies self sw (PyStr.strip query)
    (Py.range (Z.min 10 ((n + 9) / 10))) = Some bodies ->
  Forall (fun body => shaped_page body = true) bodies ->
  fst (Full.search_pdfs self sw query n)
  = let urls := firstn (Z.to_nat n) (concat (map pdf_links bodies)) in
    match urls with
    | [] => Full.Returned []
    | _ :: _ =>
        if Full.save_raises sw urls (PyStr.strip query)
        then Full.Raised Full.FromSave
        else Full.Returned urls
    end.
Proof.
  intros Hs Hserved Hshape.
  rewrite (full_search_nonblank _ _ _ _ Hs).
  destruct (Z.le_gt_cases n 0) as [Hn|Hn].
  - rewrite range_nonpos in * by (apply num_requests_nonpos, Hn).
    injection Hserved as <-. simpl. rewrite firstn_nil. reflexivity.
  - rewrite (full_loop_shaped self sw (PyStr.strip query) n _ [] bodies);
      [reflexivity| |exact Hserved|exact Hshape].
    unfold Py.len. simpl. lia.
Qed.

Lemma search_returns_first_pdf_links_witness :
  fst (Full.search_pdfs Sample.dl Sample.world_long_names " rocq manual " 25)
  = Full.Returned ["http://a.example/one.PDF"; "http://c.example/two.pdf"].
Proof.
  refine (search_returns_first_pdf_links Sample.dl Sample.world_long_names
            " rocq manual " 25 [Sample.page1] _ _ _).
  - discriminate.
  - vm_compute. reflexivity.
  - repeat constructor.
Defined.

(* ===================================================================== *)
(** * Retrieval with the calls that can fail: facts *)
(* ===================================================================== *)



Section FullDownloadFacts.

Variable d : Full.disk.
Variable w : world.
Variable output_dir : string.

Let doc (i : nat) : string := document output_dir i.




(** An attempt of [Full] touches no file but the one of its position. *)
Lemma full_download_one_other i url st p :
  p <> doc i ->
  files (Full.download_one d w output_dir i url st) !! p = files st !! p.
Proof.
  intros Hne. unfold Full.download_one, Full.attempt, Full.save_body, handle.
  fold (doc i). assert (Hne' : doc i <> p) by congruence.
  repeat case_match; simplify_eq; cbn [files sleep write_log set_files];
    rewrite ?lookup_delete_ne, ?write_chunks_lookup_ne, ?lookup_insert_ne
      by assumption;
    reflexivity.
Qed.



Lemma full_download_loop_other urls :
  forall i st p,
    (∀ j, (i <= j < i + length urls)%nat -> p <> doc j) ->
    files (Full.download_loop d w output_dir i urls st) !! p = files st !! p.
Proof.
  induction urls as [|url rest IH]; intros i st p Hp; simpl; [reflexivity|].
  rewrite IH by (intros j Hj; apply Hp; simpl; lia).
  apply full_download_one_other, Hp. simpl. lia.
Qed.


End FullDownloadFacts.

(* ===================================================================== *)
(** * Retrieval with the calls that can fail: the properties *)
(* ===================================================================== *)






(** X16. Among the files on disk other than its own log,
    [download_pdfs] creates, truncates or removes only the documents of
    the positions 1 to [len(urls)] in the output directory: every other
    file is after the call as it was before. *)
Theorem download_touches_only_documents d w output_dir urls files0 dirs0 st p :
  Full.download_pdfs d w output_dir urls files0 dirs0 = inr st ->
  (∀ j, (1 <= j <= length urls)%nat -> p <> document output_dir j) ->
  files st !! p = files0 !! p.
Proof.
  intros Hrun Hp. unfold Full.download_pdfs in Hrun.
  destruct (Full.path_exists output_dir files0 dirs0);
    [|destruct (Full.makedirs d output_dir); [discriminate Hrun|]];
    (destruct (Full.open_log_error d); [discriminate Hrun|]);
    injection Hrun as <-;
    (rewrite full_download_loop_other; [reflexivity|]);
    intros j Hj; apply Hp; lia.
Qed.

Lemma download_touches_only_documents_witness :
  files (download_pdfs Sample.web "downloaded_pdfs"
           ["http://e.example/empty.pdf"; "http://a.example/one.PDF"]
           Sample.stale ∅)
    !! "downloaded_pdfs/document_3.pdf"
  = Sample.stale !! "downloaded_pdfs/document_3.pdf".
Proof.
  apply (download_touches_only_documents Sample.disk_ok Sample.web
           "downloaded_pdfs"
           ["http://e.example/empty.pdf"; "http://a.example/one.PDF"]
           Sample.stale ∅).
  - vm_compute. reflexivity.
  - intros j Hj Heq. simpl in Hj.
    change "downloaded_pdfs/document_3.pdf" with (document "downloaded_pdfs" 3)
      in Heq.
    apply document_inj in Heq. lia.
Defined.

(** X17. The file of position [i] is [document_<i>.pdf], [i] in decimal,
    joined to the output directory as [os.path.join] does: alone when the
    directory name is empty, right after the name when it ends in a slash,
    after the name and a slash otherwise; two positions never share a
    file. *)
Theorem document_names output_dir i j :
  let name := "document_" +:+ pretty i +:+ ".pdf" in
  (output_dir = "" -> document output_dir i = name)
  ∧ (PyStr.endswith output_dir "/" = true ->
     document output_dir i = output_dir +:+ name)
  ∧ (output_dir <> "" -> PyStr.endswith output_dir "/" = false ->
     document output_dir i = output_dir +:+ "/" +:+ name)
  ∧ (document output_dir i = document output_dir j -> i = j).
Proof.
  intros name. subst name. unfold document, path_join.
  split; [intros ->; reflexivity|]. split; [|split].
  - intros H. destruct output_dir as [|c a]; [discriminate H|].
    rewrite H. reflexivity.
  - intros Hne H. destruct output_dir as [|c a]; [congruence|].
    rewrite H. reflexivity.
  - apply document_inj.
Qed.
